(** * sleep.py: resolution of sleep intervals

    A shallow embedding of the interval logic of [sleep.py]
    ([parse_time], [parse_duration], [get_checked_duration],
    [get_interval], [get_next_interval], [main]) and the properties the
    specification states about it.

    Values are modelled as Python has them:
    - a [timedelta] is a signed count of microseconds, limited to
      [TD_MIN .. TD_MAX]; building one outside raises [OverflowError];
    - a [datetime] is a wall-clock reading, in microseconds since
      0001-01-01 00:00:00, with an optional UTC offset: [None] for a naive
      datetime, [Some off] for an aware one;
    - [None], the empty string and [timedelta(0)] are falsy.

    The libraries the script calls ([dateparser], [parsedatetime], [pytz],
    [float], the system clock and the calendar service) are parameters of
    [Section Script]; [Module Sample] instantiates them with small
    executable stand-ins on which the theorems are evaluated. *)

From Stdlib Require Import ZArith List String Ascii Bool Lia.
Import ListNotations.
Local Open Scope Z_scope.

(** ** Durations and instants *)

Definition US_PER_SECOND : Z := 1000000.
Definition US_PER_MINUTE : Z := 60 * US_PER_SECOND.
Definition US_PER_HOUR : Z := 60 * US_PER_MINUTE.
Definition US_PER_DAY : Z := 24 * US_PER_HOUR.

(** [datetime.timedelta], in microseconds. *)
Definition timedelta : Type := Z.

(** [timedelta.min] and [timedelta.max]. *)
Definition TD_MIN : Z := - 999999999 * US_PER_DAY.
Definition TD_MAX : Z := 999999999 * US_PER_DAY + (US_PER_DAY - 1).

(** Last representable wall-clock reading, 9999-12-31 23:59:59.999999. *)
Definition MAX_WALL : Z := 3652059 * US_PER_DAY - 1.

Record datetime : Type := mk_datetime {
  wall : Z;
  utcoffset : option Z
}.

Definition naive (w : Z) : datetime := mk_datetime w None.
Definition aware (w off : Z) : datetime := mk_datetime w (Some off).

(** The UTC instant of an aware datetime. *)
Definition instant (w off : Z) : Z := w - off.

(** ** Exceptions *)

(** The texts of the [ValueError]s, kept as data: each constructor holds
    the values its f-string interpolates. *)
Inductive message : Type :=
| MsgNotAFloat (text : string)
| MsgNaNHours
| MsgUnableToParseDuration (input_duration : string)
| MsgInconsistentDuration (check_duration : timedelta)
    (start end_ : datetime) (threshold_mins : Z)
| MsgStartAfterEnd (start end_ : datetime)
| MsgInvalidCombination
| MsgNotNaive
| MsgSecurityDirNotFound
| MsgCredentialsNotFound.

Inductive exn : Type :=
| ValueError (msg : message)
| TypeError
| OverflowError.

Inductive result (A : Type) : Type :=
| Ok (a : A)
| Raise (e : exn).
Arguments Ok {A} a.
Arguments Raise {A} e.

Definition is_ok {A : Type} (r : result A) : bool :=
  match r with Ok _ => true | Raise _ => false end.

(** ** Arithmetic of [datetime] and [timedelta] *)

Definition in_td_range (d : Z) : bool := (TD_MIN <=? d) && (d <=? TD_MAX).
Definition in_wall_range (w : Z) : bool := (0 <=? w) && (w <=? MAX_WALL).

(** [a - b] on timedeltas. *)
Definition td_sub (a b : timedelta) : result timedelta :=
  if in_td_range (a - b) then Ok (a - b) else Raise OverflowError.

(** [a - b] on datetimes: naive with naive by wall clock, aware with aware
    by UTC instant, and a [TypeError] when they are mixed. *)
Definition dt_sub (a b : datetime) : result timedelta :=
  match utcoffset a, utcoffset b with
  | None, None => Ok (wall a - wall b)
  | Some oa, Some ob => Ok (instant (wall a) oa - instant (wall b) ob)
  | _, _ => Raise TypeError
  end.

(** [a + d]: the wall clock moves, the offset stays. *)
Definition dt_add (a : datetime) (d : timedelta) : result datetime :=
  if in_wall_range (wall a + d)
  then Ok (mk_datetime (wall a + d) (utcoffset a))
  else Raise OverflowError.

(** [a - d]. *)
Definition dt_minus (a : datetime) (d : timedelta) : result datetime :=
  if in_wall_range (wall a - d)
  then Ok (mk_datetime (wall a - d) (utcoffset a))
  else Raise OverflowError.

(** [a > b] on datetimes. *)
Definition dt_gt (a b : datetime) : result bool :=
  match utcoffset a, utcoffset b with
  | None, None => Ok (wall a >? wall b)
  | Some oa, Some ob => Ok (instant (wall a) oa >? instant (wall b) ob)
  | _, _ => Raise TypeError
  end.

(** ** Truthiness *)

Definition nonempty (s : string) : bool :=
  match s with EmptyString => false | String _ _ => true end.

Definition truthy_str (o : option string) : bool :=
  match o with Some s => nonempty s | None => false end.

Definition truthy_dt (o : option datetime) : bool :=
  match o with Some _ => true | None => false end.

Definition truthy_td (o : option timedelta) : bool :=
  match o with Some d => negb (d =? 0) | None => false end.

(** ** The proleptic Gregorian calendar, for [strftime] *)

Module Calendar.

Definition is_leap (y : Z) : bool :=
  ((y mod 4 =? 0) && negb (y mod 100 =? 0)) || (y mod 400 =? 0).

Definition days_in_month (y m : Z) : Z :=
  if m =? 2 then (if is_leap y then 29 else 28)
  else if (m =? 4) || (m =? 6) || (m =? 9) || (m =? 11) then 30
  else 31.

(** Days in the years before year [y]. *)
Definition days_before_year (y : Z) : Z :=
  let p := y - 1 in p * 365 + p / 4 - p / 100 + p / 400.

(** Days of year [y] before the first of month [m]. *)
Fixpoint days_before_month_from (y : Z) (k : nat) (m : Z) : Z :=
  match k with
  | O => 0
  | S k' =>
      if Z.of_nat k <? m
      then days_in_month y (Z.of_nat k) + days_before_month_from y k' m
      else days_before_month_from y k' m
  end.

Definition days_before_month (y m : Z) : Z := days_before_month_from y 12 m.

(** Ordinal of a date, 0001-01-01 being day 1. *)
Definition ymd2ord (y m d : Z) : Z :=
  days_before_year y + days_before_month y m + d.

(** Month and day of the [n]-th day (from 0) of year [y]. *)
Fixpoint month_of (y : Z) (k : nat) (m n : Z) : Z * Z :=
  match k with
  | O => (m, n + 1)
  | S k' =>
      let len := days_in_month y m in
      if n <? len then (m, n + 1) else month_of y k' (m + 1) (n - len)
  end.

(** Date of an ordinal, as [datetime._ord2ymd] computes it. *)
Definition ord2ymd (ordinal : Z) : Z * Z * Z :=
  let n := ordinal - 1 in
  let n400 := n / 146097 in
  let n := n mod 146097 in
  let n100 := n / 36524 in
  let n := n mod 36524 in
  let n4 := n / 1461 in
  let n := n mod 1461 in
  let n1 := n / 365 in
  let n := n mod 365 in
  let year := n400 * 400 + 1 + n100 * 100 + n4 * 4 + n1 in
  if (n1 =? 4) || (n100 =? 4) then (year - 1, 12, 31)
  else let '(m, d) := month_of year 11 1 n in (year, m, d).

(** Wall-clock reading of a civil date and time of day. *)
Definition wall_of (y m d hh mm ss us : Z) : Z :=
  (ymd2ord y m d - 1) * US_PER_DAY
  + hh * US_PER_HOUR + mm * US_PER_MINUTE + ss * US_PER_SECOND + us.

Definition digit (n : Z) : ascii :=
  ascii_of_nat (48 + Z.to_nat (n mod 10)).

(** [n] in decimal, zero-padded to [width] digits. *)
Fixpoint pad (width : nat) (n : Z) (acc : string) : string :=
  match width with
  | O => acc
  | S w => pad w (n / 10) (String (digit n) acc)
  end.

(** A year as the C library's [%Y] prints it: in decimal with no padding,
    so with fewer than four digits before year 1000. *)
Definition year_text (y : Z) (acc : string) : string :=
  if y <? 10 then pad 1 y acc
  else if y <? 100 then pad 2 y acc
  else if y <? 1000 then pad 3 y acc
  else pad 4 y acc.

End Calendar.

(** First instant of the minute a reading falls in. *)
Definition floor_minute (w : Z) : Z := w - w mod US_PER_MINUTE.

(** First instant of the second a reading falls in. *)
Definition floor_second (w : Z) : Z := w - w mod US_PER_SECOND.

(** [dt.strftime("%Y-%m-%d %H:%M")]: the wall clock to the minute; seconds,
    microseconds and the offset are not printed, and the year is not
    padded. *)
Definition strftime_minute (dt : datetime) : string :=
  let w := wall dt in
  let '(y, m, d) := Calendar.ord2ymd (w / US_PER_DAY + 1) in
  let tod := w mod US_PER_DAY in
  let hh := tod / US_PER_HOUR in
  let mm := (tod mod US_PER_HOUR) / US_PER_MINUTE in
  Calendar.year_text y
    (String "-" (Calendar.pad 2 m
      (String "-" (Calendar.pad 2 d
        (String " " (Calendar.pad 2 hh
          (String ":" (Calendar.pad 2 mm EmptyString)))))))).

(** ** What a run does to the outside *)

(** Lines written to standard output, without their colours. *)
Inductive output : Type :=
| OutDebug (start end_ : option datetime) (duration : option timedelta)
| OutHeading (text : string)
| OutInterval (start end_ : datetime) (duration : timedelta)
| OutCalendarExists (name : string)
| OutCalendarCreated (name : string)
| OutCalendarId (calendar_id : string)
| OutEventLink (label : string) (url : option string).

(** Requests sent to the calendar service. *)
Inductive call : Type :=
| CallBuildService
| CallCalendarList
| CallCalendarInsert (summary time_zone : string)
| CallEventInsert (calendar_id event_prefix : string) (duration : timedelta)
    (start end_ : datetime) (time_zone : string).

Inductive event : Type :=
| Print (line : output)
| Request (c : call).

Definition is_request (e : event) : bool :=
  match e with Request _ => true | Print _ => false end.

(** The state a run threads: how many times the clock has been read, and
    what has been printed and requested so far, oldest first. *)
Record world : Type := mk_world {
  reads : nat;
  trace : list event
}.

(** The world after one more reading of the clock. *)
Definition tick (w : world) : world := mk_world (S (reads w)) (trace w).

(** No request has been sent to the calendar service yet. *)
Definition no_requests (w : world) : Prop :=
  filter is_request (trace w) = [].

Definition M (A : Type) : Type := world -> result A * world.

Definition ret {A : Type} (a : A) : M A := fun w => (Ok a, w).

Definition raise {A : Type} (e : exn) : M A := fun w => (Raise e, w).

Definition lift {A : Type} (r : result A) : M A := fun w => (r, w).

Definition bind {A B : Type} (m : M A) (k : A -> M B) : M B :=
  fun w =>
    match m w with
    | (Ok a, w') => k a w'
    | (Raise e, w') => (Raise e, w')
    end.

Declare Scope script_scope.
Delimit Scope script_scope with script.
Notation "x <- m ;; k" := (bind m (fun x => k))
  (at level 61, m at next level, right associativity) : script_scope.
Notation "m ;; k" := (bind m (fun _ => k))
  (at level 61, right associativity) : script_scope.
Local Open Scope script_scope.

Definition emit (e : event) : M unit :=
  fun w => (Ok tt, mk_world (reads w) (trace w ++ [e])).

Definition print (line : output) : M unit := emit (Print line).

Definition when (b : bool) (m : M unit) : M unit := if b then m else ret tt.

(** [try: body / except ValueError: pass], followed by [handler]. *)
Definition try_except_ValueError {A : Type} (body handler : M A) : M A :=
  fun w =>
    match body w with
    | (Raise (ValueError _), w') => handler w'
    | other => other
    end.

(** A value a guard has just tested to be present; using [None] as a
    datetime or a timedelta is a [TypeError]. *)
Definition need {A : Type} (o : option A) : M A :=
  match o with Some a => ret a | None => raise TypeError end.

(** ** Configuration and command line *)

Definition SLEEP_CALENDAR_summary : string := "Sleep".
Definition SLEEP_CALENDAR_timeZone : string := "America/Los_Angeles".
Definition DEFAULT_END : string := "now".
Definition DEFAULT_DURATION : string := "8".
Definition THRESHOLD_MINS : Z := 5.

Record calendar : Type := mk_calendar {
  summary : string;
  id : string
}.

(** The namespace [argparse] returns: an option not given is [None], or
    its default for [--default-offset]. *)
Record args : Type := mk_args {
  start : option string;
  end_ : option string;
  duration : option string;
  predict_next : bool;
  next_start : option string;
  next_end : option string;
  next_duration : option string;
  default_offset : string;
  update_calendar : bool
}.

Definition interval : Type := datetime * datetime * timedelta.

(** ** Stand-ins for the libraries

    Executable fragments of the libraries, used to run the script on
    concrete command lines: times written [YYYY-MM-DD HH:MM] or
    [YYYY-MM-DD HH:MM:SS] and the word [now]; durations written as whole
    hours or as one of a few phrases; the zone's rule of 2007 and later
    (daylight time from the second Sunday of March to the first Sunday of
    November). *)

Module Sample.

Definition is_digit (c : ascii) : bool :=
  let n := nat_of_ascii c in (48 <=? n)%nat && (n <=? 57)%nat.

Fixpoint number_from (acc : Z) (s : string) : option Z :=
  match s with
  | EmptyString => Some acc
  | String c rest =>
      if is_digit c
      then number_from (10 * acc + Z.of_nat (nat_of_ascii c - 48)) rest
      else None
  end.

(** A non-empty run of decimal digits. *)
Definition number (s : string) : option Z :=
  match s with
  | EmptyString => None
  | String _ _ => number_from 0 s
  end.

Definition field (from len : nat) (s : string) : option Z :=
  number (substring from len s).

Definition separator (at_ : nat) (c : string) (s : string) : bool :=
  String.eqb (substring at_ 1 s) c.

Definition valid_date (y m d : Z) : bool :=
  (1 <=? y) && (y <=? 9999) && (1 <=? m) && (m <=? 12)
  && (1 <=? d) && (d <=? Calendar.days_in_month y m).

Definition valid_time (hh mm ss : Z) : bool :=
  (hh <=? 23) && (mm <=? 59) && (ss <=? 59).

(** [YYYY-MM-DD HH:MM] with an optional [:SS]. *)
Definition parse_iso (s : string) : option Z :=
  let n := String.length s in
  if ((n =? 16)%nat || (n =? 19)%nat)
     && separator 4 "-" s && separator 7 "-" s && separator 10 " " s
     && separator 13 ":" s && ((n =? 16)%nat || separator 16 ":" s)
  then
    match field 0 4 s, field 5 2 s, field 8 2 s, field 11 2 s, field 14 2 s,
          (if (n =? 16)%nat then Some 0 else field 17 2 s) with
    | Some y, Some m, Some d, Some hh, Some mm, Some ss =>
        if valid_date y m d && valid_time hh mm ss
        then Some (Calendar.wall_of y m d hh mm ss 0)
        else None
    | _, _, _, _, _, _ => None
    end
  else None.

Definition dateparser_parse (now : Z) (text : string) : option datetime :=
  if String.eqb text "now" then Some (naive now)
  else match parse_iso text with
       | Some w => Some (naive w)
       | None => None
       end.

(** The clock shows 2024-01-15 06:30:45.250000 at the first reading and a
    millisecond more at each later one. *)
Definition clock (n : nat) : Z :=
  Calendar.wall_of 2024 1 15 6 30 45 250000 + Z.of_nat n * 1000.

(** Whole numbers of hours, with an optional sign. *)
Definition pyfloat : Type := Z.

Definition float_of_string (text : string) : option pyfloat :=
  match text with
  | String "-" rest => option_map Z.opp (number rest)
  | _ => number text
  end.

Definition timedelta_of_hours (h : pyfloat) : result timedelta :=
  if in_td_range (h * US_PER_HOUR) then Ok (h * US_PER_HOUR)
  else Raise OverflowError.

Definition phrases : list (string * Z) :=
  [ ("3 minutes", 3 * US_PER_MINUTE);
    ("8 hours", 8 * US_PER_HOUR);
    ("8 hours 30 minutes", 8 * US_PER_HOUR + 30 * US_PER_MINUTE);
    ("2h", 2 * US_PER_HOUR) ]%string.

(** The source time loses its microseconds on the way through a time
    tuple; status 2 is a parsed time, status 0 nothing parsed. *)
Definition pdt_parseDT (text : string) (source_time : Z) : Z * Z :=
  match find (fun p => String.eqb (fst p) text) phrases with
  | Some p => (floor_second source_time + snd p, 2)
  | None => (floor_second source_time, 0)
  end.

Definition PST : Z := - 8 * US_PER_HOUR.
Definition PDT : Z := - 7 * US_PER_HOUR.

(** First Sunday on or after day [d] of month [m]: ordinals that are
    multiples of 7 are Sundays. *)
Definition sunday_from (y m d : Z) : Z :=
  d + (7 - Calendar.ymd2ord y m d mod 7) mod 7.

(** Offset given to a naive reading, as [localize] chooses with
    [is_dst=False]: the hour skipped in March and the hour repeated in
    November are both read as standard time. *)
Definition tz_utcoffset (w : Z) : option Z :=
  if (w <? US_PER_DAY) || (MAX_WALL - US_PER_DAY <? w) then None
  else
    let '(y, _, _) := Calendar.ord2ymd (w / US_PER_DAY + 1) in
    let dst_from := Calendar.wall_of y 3 (sunday_from y 3 8) 3 0 0 0 in
    let dst_until := Calendar.wall_of y 11 (sunday_from y 11 1) 1 0 0 0 in
    if (dst_from <=? w) && (w <? dst_until) then Some PDT else Some PST.

Definition calendar_items : list calendar :=
  [ mk_calendar "Work" "work-id"; mk_calendar "Sleep" "sleep-id" ]%string.

Definition initial : world := mk_world 0 [].

(** [dateparser.parse] on texts that name their zone: a time followed by
    [" UTC"] comes back aware, with offset zero; any other text is read as
    [dateparser_parse] reads it. *)
Definition dateparser_parse_zoned (now : Z) (text : string) : option datetime :=
  let n := String.length text in
  if (4 <=? n)%nat && String.eqb (substring (n - 4) 4 text) " UTC"
  then match parse_iso (substring 0 (n - 4) text) with
       | Some w => Some (aware w 0)
       | None => None
       end
  else dateparser_parse now text.

(** [datetime.now(TIMEZONE)] for the clock above, in January: the same
    reading, aware, at standard time. *)
Definition zone_now (n : nat) : datetime := aware (clock n) PST.

End Sample.

(** ** The script *)

Section Script.

(** The system clock: [clock n] is the local time it shows the [n]-th time
    it is read, as a naive wall-clock reading. *)
Variable clock : nat -> Z.

(** [dateparser.parse], given the clock reading at the call: [None] for a
    text it cannot resolve, else a naive or an aware datetime. *)
Variable dateparser_parse : Z -> string -> option datetime.

(** [parsedatetime.Calendar().parseDT(text, sourceTime)]: a naive wall-clock
    reading and the parse status (0: nothing parsed). *)
Variable pdt_parseDT : string -> Z -> Z * Z.

(** [float(text)], [None] when it raises [ValueError]; and
    [timedelta(hours=h)], which raises [ValueError] for a NaN and
    [OverflowError] for an infinity or a value out of range. *)
Variable pyfloat : Type.
Variable float_of_string : string -> option pyfloat.
Variable timedelta_of_hours : pyfloat -> result timedelta.

(** The UTC offset [TIMEZONE.localize] gives a naive wall-clock reading,
    [None] where its arithmetic leaves the range of [datetime]. *)
Variable tz_utcoffset : Z -> option Z.

(** The calendar service and the files [get_service] looks for. *)
Variable security_dir_exists : bool.
Variable client_secret_exists : bool.
Variable calendar_items : list calendar.
Variable created_calendar_id : string.
Variable event_html_link : option string.

Definition datetime_now : M Z :=
  fun w => (Ok (clock (reads w)), tick w).

Definition parse_time (input_time : string) : M (option datetime) :=
  now <- datetime_now ;;
  ret (dateparser_parse now input_time).

Definition float (text : string) : M pyfloat :=
  match float_of_string text with
  | Some h => ret h
  | None => raise (ValueError (MsgNotAFloat text))
  end.

Definition parse_duration (input_duration : string) : M timedelta :=
  try_except_ValueError
    (hours <- float input_duration ;;
     lift (timedelta_of_hours hours))
    (now <- datetime_now ;;
     let '(time_struct, parse_status) := pdt_parseDT input_duration now in
     if parse_status =? 0
     then raise (ValueError (MsgUnableToParseDuration input_duration))
     else ret (time_struct - now)).

Definition get_checked_duration (start end_ : datetime)
    (check_duration : option timedelta) (threshold_mins : Z)
    : result timedelta :=
  match dt_sub end_ start with
  | Raise e => Raise e
  | Ok calculated_duration =>
      match check_duration with
      | None => Ok calculated_duration
      | Some check =>
          if check =? 0 then Ok calculated_duration
          else
            let threshold := threshold_mins * US_PER_MINUTE in
            match td_sub calculated_duration check with
            | Raise e => Raise e
            | Ok difference =>
                if Z.abs difference >? threshold
                then Raise (ValueError
                       (MsgInconsistentDuration check start end_ threshold_mins))
                else Ok (Z.max check calculated_duration)
            end
      end
  end.

(** [TIMEZONE.localize(dt)]. *)
Definition localize (dt : datetime) : result datetime :=
  match utcoffset dt with
  | Some _ => Raise (ValueError MsgNotNaive)
  | None =>
      match tz_utcoffset (wall dt) with
      | Some off => Ok (aware (wall dt) off)
      | None => Raise OverflowError
      end
  end.

(** Lines 320-322: an argument is parsed when it is truthy. *)
Definition parse_if_given {A : Type} (parse : string -> M A)
    (input : option string) : M (option A) :=
  match input with
  | Some text =>
      if nonempty text then (v <- parse text ;; ret (Some v)) else ret None
  | None => ret None
  end.

(** [parse_time(x) if x else None]: [None] when [x] is falsy and when
    [parse_time] returns [None]. *)
Definition present {A : Type} (o : option (option A)) : option A :=
  match o with Some v => v | None => None end.

(** Lines 324-361: the chain of cases over which values are truthy. *)
Definition resolve_cases (start end_ : option datetime)
    (duration : option timedelta) (default_end default_duration : string)
    : M interval :=
  let s := truthy_dt start in
  let e := truthy_dt end_ in
  let d := truthy_td duration in
  if s && e && d then
    st <- need start ;; en <- need end_ ;;
    du <- lift (get_checked_duration st en duration THRESHOLD_MINS) ;;
    ret (st, en, du)
  else if s && e then
    st <- need start ;; en <- need end_ ;;
    du <- lift (get_checked_duration st en duration THRESHOLD_MINS) ;;
    ret (st, en, du)
  else if s && d then
    st <- need start ;; du <- need duration ;;
    en <- lift (dt_add st du) ;;
    ret (st, en, du)
  else if e && d then
    en <- need end_ ;; du <- need duration ;;
    st <- lift (dt_minus en du) ;;
    ret (st, en, du)
  else if d && negb (s || e) then
    parsed_end <- parse_time default_end ;;
    en <- need parsed_end ;; du <- need duration ;;
    st <- lift (dt_minus en du) ;;
    ret (st, en, du)
  else if s && negb (e || d) then
    du <- parse_duration default_duration ;;
    st <- need start ;;
    en <- lift (dt_add st du) ;;
    ret (st, en, du)
  else if e && negb (s || d) then
    du <- parse_duration default_duration ;;
    en <- need end_ ;;
    st <- lift (dt_minus en du) ;;
    ret (st, en, du)
  else if negb (s || e || d) then
    parsed_end <- parse_time default_end ;;
    du <- parse_duration default_duration ;;
    en <- need parsed_end ;;
    st <- lift (dt_minus en du) ;;
    ret (st, en, du)
  else
    print (OutDebug start end_ duration) ;;
    raise (ValueError MsgInvalidCombination).

(** Lines 363-370: localize both ends, then refuse a start after the end. *)
Definition localize_and_check (resolved : interval) : M interval :=
  let '(st, en, du) := resolved in
  st' <- lift (localize st) ;;
  en' <- lift (localize en) ;;
  after <- lift (dt_gt st' en') ;;
  if after then raise (ValueError (MsgStartAfterEnd st' en'))
  else ret (st', en', du).

Definition get_interval (input_start input_end input_duration : option string)
    (default_end default_duration : string) : M interval :=
  start <- parse_if_given parse_time input_start ;;
  end_ <- parse_if_given parse_time input_end ;;
  duration <- parse_if_given parse_duration input_duration ;;
  resolved <- resolve_cases (present start) (present end_) duration
                default_end default_duration ;;
  localize_and_check resolved.

Definition print_interval (i : interval) : M unit :=
  let '(st, en, du) := i in print (OutInterval st en du).

Definition prediction_requested (a : args) : bool :=
  predict_next a || truthy_str (next_start a) || truthy_str (next_end a)
  || truthy_str (next_duration a).

Definition get_current_interval (a : args) (verbose : bool) : M interval :=
  current_interval <-
    get_interval (start a) (end_ a) (duration a) DEFAULT_END DEFAULT_DURATION ;;
  when verbose
    (print (OutHeading "Current sleep interval:") ;;
     print_interval current_interval) ;;
  ret current_interval.

Definition get_next_interval (a : args) (current_interval : interval)
    (verbose : bool) : M (option interval) :=
  if negb (prediction_requested a) then ret None
  else
    offset <- parse_duration (default_offset a) ;;
    next_start' <-
      (if negb (truthy_str (next_start a) || truthy_str (next_end a)
                || truthy_str (next_duration a))
       then
         let '(_, curr_end, _) := current_interval in
         shifted <- lift (dt_add curr_end offset) ;;
         ret (Some (strftime_minute shifted))
       else ret (next_start a)) ;;
    next_interval <-
      get_interval next_start' (next_end a) (next_duration a)
        DEFAULT_END DEFAULT_DURATION ;;
    when verbose
      (print (OutHeading "Next sleep interval:") ;;
       print_interval next_interval) ;;
    ret (Some next_interval).

(** [get_service]: the two files are looked for, then the token is loaded
    or obtained and the service object built, here one request. *)
Definition get_service : M unit :=
  if negb security_dir_exists
  then raise (ValueError MsgSecurityDirNotFound)
  else if negb client_secret_exists
  then raise (ValueError MsgCredentialsNotFound)
  else emit (Request CallBuildService).

Definition get_sleep_calendar_id (verbose : bool) : M string :=
  emit (Request CallCalendarList) ;;
  match find (fun c => String.eqb (summary c) SLEEP_CALENDAR_summary)
          calendar_items with
  | Some c =>
      when verbose
        (print (OutCalendarExists SLEEP_CALENDAR_summary) ;;
         print (OutCalendarId (id c))) ;;
      ret (id c)
  | None =>
      emit (Request (CallCalendarInsert SLEEP_CALENDAR_summary
                       SLEEP_CALENDAR_timeZone)) ;;
      when verbose
        (print (OutCalendarCreated SLEEP_CALENDAR_summary) ;;
         print (OutCalendarId created_calendar_id)) ;;
      ret created_calendar_id
  end.

(** [create_sleep_event] with the [create_calendar_event] it calls; the
    value is the created event's [htmlLink]. *)
Definition create_sleep_event (calendar_id : string) (sleep_interval : interval)
    (event_prefix : string) : M (option string) :=
  let '(start_time, end_time, du) := sleep_interval in
  emit (Request (CallEventInsert calendar_id event_prefix du
                   start_time end_time SLEEP_CALENDAR_timeZone)) ;;
  ret event_html_link.

Definition create_current_sleep_event (calendar_id : string)
    (current_interval : interval) : M (option string) :=
  url <- create_sleep_event calendar_id current_interval "Sleep" ;;
  print (OutEventLink "Current sleep event:" url) ;;
  ret url.

Definition create_next_sleep_event (calendar_id : string)
    (next_interval : option interval) : M (option string) :=
  match next_interval with
  | None => ret None
  | Some i =>
      url <- create_sleep_event calendar_id i "Predicted Sleep" ;;
      print (OutEventLink "Predicted sleep event:" url) ;;
      ret url
  end.

Definition main (a : args) : M unit :=
  current_interval <- get_current_interval a true ;;
  next_interval <- get_next_interval a current_interval true ;;
  if negb (update_calendar a) then ret tt
  else
    get_service ;;
    calendar_id <- get_sleep_calendar_id true ;;
    create_current_sleep_event calendar_id current_interval ;;
    create_next_sleep_event calendar_id next_interval ;;
    ret tt.

(** [datetime.now(TIMEZONE)]: the clock read as an aware datetime of the
    calendar's zone. *)
Variable zone_now : nat -> datetime.

Definition datetime_now_in_zone : M datetime :=
  fun w => (Ok (zone_now (reads w)), tick w).

(** [timedelta(hours=h)] for an [int]. *)
Definition timedelta_of_int_hours (h : Z) : result timedelta :=
  if in_td_range (h * US_PER_HOUR) then Ok (h * US_PER_HOUR)
  else Raise OverflowError.

(** [create_sleep_event_now], with a whole number of hours (its default is
    8) and the [create_calendar_event] it calls. *)
Definition create_sleep_event_now (calendar_id : string) (hours : Z)
    : M unit :=
  now <- datetime_now_in_zone ;;
  let start_time := now in
  length <- lift (timedelta_of_int_hours hours) ;;
  end_time <- lift (dt_add now length) ;;
  calendar_id <- get_sleep_calendar_id true ;;
  emit (Request (CallEventInsert calendar_id "Sleep" length
                   start_time end_time SLEEP_CALENDAR_timeZone)).

(** ** Vocabulary of the statements *)

(** The first calendar of the account that is named "Sleep". *)
Definition sleep_calendar : option calendar :=
  find (fun c => String.eqb (summary c) SLEEP_CALENDAR_summary) calendar_items.

(** The requests [get_sleep_calendar_id] sends and the id it returns. *)
Definition calendar_lookup : list event * string :=
  match sleep_calendar with
  | Some c => ([Request CallCalendarList], id c)
  | None =>
      ([Request CallCalendarList;
        Request (CallCalendarInsert SLEEP_CALENDAR_summary
                   SLEEP_CALENDAR_timeZone)],
       created_calendar_id)
  end.

(** The world in which the next argument is parsed, after one that was
    parsed only if it is truthy. *)
Definition after_argument (input : option string) (w : world) : world :=
  if truthy_str input then tick w else w.

(** What [main] prints for an interval it has resolved. *)
Definition interval_lines (heading : string) (i : interval) : list event :=
  let '(st, en, du) := i in
  [Print (OutHeading heading); Print (OutInterval st en du)].

(** The requests of [main] that record an interval. *)
Definition event_request (calendar_id event_prefix : string) (i : interval)
    : event :=
  let '(st, en, du) := i in
  Request (CallEventInsert calendar_id event_prefix du st en
             SLEEP_CALENDAR_timeZone).

(** [float(text)] succeeds and [timedelta(hours=...)] of it is [d]. *)
Definition reads_as_hours (text : string) (d : timedelta) : Prop :=
  exists h, float_of_string text = Some h /\ timedelta_of_hours h = Ok d.

(** The numeric reading of [text] ends in a [ValueError]: [float] refuses
    it, or [timedelta] refuses the float. *)
Definition not_numeric (text : string) : Prop :=
  float_of_string text = None
  \/ exists h msg, float_of_string text = Some h
                   /\ timedelta_of_hours h = Raise (ValueError msg).

(** [parse_time text], called in world [w], gives the naive reading [x]. *)
Definition parses_at (w : world) (text : string) (x : Z) : Prop :=
  dateparser_parse (clock (reads w)) text = Some (naive x).

(** The eight guards of [get_interval]'s chain, in order. *)
Definition guards (s e d : bool) : list bool :=
  [ s && e && d; s && e; s && d; e && d; d && negb (s || e);
    s && negb (e || d); e && negb (s || d); negb (s || e || d) ].

(** A computation that prints nothing and requests nothing. *)
Definition silent {A : Type} (m : M A) : Prop :=
  forall w, trace (snd (m w)) = trace w.

(** A computation that sends no request to the calendar service. *)
Definition quiet {A : Type} (m : M A) : Prop :=
  forall w,
    filter is_request (trace (snd (m w))) = filter is_request (trace w).

(** A computation that never ends in the "Invalid combination" error. *)
Definition never_invalid {A : Type} (m : M A) : Prop :=
  forall w, fst (m w) <> Raise (ValueError MsgInvalidCombination).

(** * Properties *)

(** ** Running the monad *)

Lemma bind_ok {A B : Type} (m : M A) (k : A -> M B) w a w' :
  m w = (Ok a, w') -> bind m k w = k a w'.
Proof. intros H. unfold bind. now rewrite H. Qed.

Lemma bind_raise {A B : Type} (m : M A) (k : A -> M B) w e w' :
  m w = (Raise e, w') -> bind m k w = (Raise e, w').
Proof. intros H. unfold bind. now rewrite H. Qed.

Lemma parse_time_run text w :
  parse_time text w = (Ok (dateparser_parse (clock (reads w)) text), tick w).
Proof. reflexivity. Qed.

Lemma parse_if_given_absent {A : Type} (parse : string -> M A) input w :
  truthy_str input = false -> parse_if_given parse input w = (Ok None, w).
Proof.
  destruct input as [text|]; simpl; [|reflexivity].
  intros H. now rewrite H.
Qed.

Lemma parse_if_given_ok {A : Type} (parse : string -> M A) text w a w' :
  nonempty text = true -> parse text w = (Ok a, w') ->
  parse_if_given parse (Some text) w = (Ok (Some a), w').
Proof.
  intros Hne H. simpl. rewrite Hne. now rewrite (bind_ok _ _ _ _ _ H).
Qed.

Lemma parse_if_given_raise {A : Type} (parse : string -> M A) text w e w' :
  nonempty text = true -> parse text w = (Raise e, w') ->
  parse_if_given parse (Some text) w = (Raise e, w').
Proof.
  intros Hne H. simpl. rewrite Hne. now rewrite (bind_raise _ _ _ _ _ H).
Qed.

(** ** [parse_duration] *)

(** What the natural-language branch of [parse_duration] does in [w]. *)
Lemma parse_duration_natural text w :
  not_numeric text ->
  parse_duration text w =
    (let now := clock (reads w) in
     if snd (pdt_parseDT text now) =? 0
     then Raise (ValueError (MsgUnableToParseDuration text))
     else Ok (fst (pdt_parseDT text now) - now),
     tick w).
Proof.
  intros Hn. unfold parse_duration, try_except_ValueError, bind, float, lift.
  assert (Hbody :
    exists msg,
      (match float_of_string text with
       | Some h => ret h
       | None => raise (ValueError (MsgNotAFloat text))
       end) w = (Raise (ValueError msg), w)
      \/ exists h, (match float_of_string text with
                    | Some h => ret h
                    | None => raise (ValueError (MsgNotAFloat text))
                    end) w = (Ok h, w)
                   /\ timedelta_of_hours h = Raise (ValueError msg)).
  { destruct Hn as [Hn | (h & msg & Hf & Ht)].
    - exists (MsgNotAFloat text). left. now rewrite Hn.
    - exists msg. right. exists h. now rewrite Hf. }
  destruct Hbody as (msg & [Hb | (h & Hb & Ht)]); rewrite Hb; try rewrite Ht;
    unfold datetime_now; cbn [reads];
    destruct (pdt_parseDT text (clock (reads w))) as [t st]; cbn [fst snd];
    destruct (st =? 0); reflexivity.
Qed.

Lemma parse_duration_numeric text d w :
  reads_as_hours text d -> parse_duration text w = (Ok d, w).
Proof.
  intros (h & Hf & Ht).
  unfold parse_duration, try_except_ValueError, bind, float, lift.
  now rewrite Hf; cbn; rewrite Ht.
Qed.

Lemma parse_duration_other_exception text h e w :
  float_of_string text = Some h -> timedelta_of_hours h = Raise e ->
  (forall msg, e <> ValueError msg) ->
  parse_duration text w = (Raise e, w).
Proof.
  intros Hf Hr Hother.
  unfold parse_duration, try_except_ValueError, bind, float, lift.
  rewrite Hf. cbn. rewrite Hr.
  destruct e as [msg| |]; [now destruct (Hother msg)|reflexivity..].
Qed.

(** C7, as the code has it: [parse_duration] first reads its text as a
    number of hours; when that reading ends in a [ValueError] ([float]
    refuses the text, or [timedelta] the number) it asks [parsedatetime] to
    resolve the text from the current instant and returns the distance from
    that instant, and when that parse reports nothing parsed it raises the
    "Unable to parse duration" [ValueError]; but when [timedelta] refuses
    the number with another exception, an [OverflowError], that exception
    is raised at once and the text is not tried as a phrase. *)
Theorem parse_duration_order (text : string) (w : world) (t status : Z)
    (Hparse : pdt_parseDT text (clock (reads w)) = (t, status)) :
  (forall d, reads_as_hours text d -> parse_duration text w = (Ok d, w))
  /\ (not_numeric text -> status <> 0 ->
      parse_duration text w = (Ok (t - clock (reads w)), tick w))
  /\ (not_numeric text -> status = 0 ->
      parse_duration text w =
        (Raise (ValueError (MsgUnableToParseDuration text)), tick w))
  /\ (forall h e,
      float_of_string text = Some h -> timedelta_of_hours h = Raise e ->
      (forall msg, e <> ValueError msg) ->
      parse_duration text w = (Raise e, w)).
Proof.
  split; [|split; [|split]].
  - intros d Hd. now apply parse_duration_numeric.
  - intros Hn Hs. rewrite (parse_duration_natural _ _ Hn). cbn zeta.
    rewrite Hparse. cbn [fst snd].
    destruct (Z.eqb_spec status 0); [contradiction|reflexivity].
  - intros Hn Hs. rewrite (parse_duration_natural _ _ Hn). cbn zeta.
    rewrite Hparse. cbn [fst snd]. subst status. reflexivity.
  - intros h e. apply parse_duration_other_exception.
Qed.

(** ** [get_checked_duration] and the final check *)

Lemma get_checked_duration_absent_or_zero st en check calc :
  dt_sub en st = Ok calc -> truthy_td check = false ->
  get_checked_duration st en check THRESHOLD_MINS = Ok calc.
Proof.
  intros Hc Ht. unfold get_checked_duration. rewrite Hc.
  destruct check as [c|]; [|reflexivity].
  simpl in Ht. now destruct (c =? 0).
Qed.

Lemma get_checked_duration_nonzero st en check calc :
  dt_sub en st = Ok calc -> check <> 0 ->
  in_td_range (calc - check) = true ->
  get_checked_duration st en (Some check) THRESHOLD_MINS =
    if Z.abs (calc - check) >? THRESHOLD_MINS * US_PER_MINUTE
    then Raise (ValueError
           (MsgInconsistentDuration check st en THRESHOLD_MINS))
    else Ok (Z.max check calc).
Proof.
  intros Hc Hnz Hr. unfold get_checked_duration, td_sub. rewrite Hc.
  destruct (Z.eqb_spec check 0); [contradiction|]. now rewrite Hr.
Qed.

Lemma localize_naive x off :
  tz_utcoffset x = Some off -> localize (naive x) = Ok (aware x off).
Proof. intros H. unfold localize. simpl. now rewrite H. Qed.

Lemma localize_and_check_naive ws we du os oe w :
  tz_utcoffset ws = Some os -> tz_utcoffset we = Some oe ->
  localize_and_check (naive ws, naive we, du) w =
    (if instant ws os >? instant we oe
     then Raise (ValueError (MsgStartAfterEnd (aware ws os) (aware we oe)))
     else Ok (aware ws os, aware we oe, du), w).
Proof.
  intros Hs He. unfold localize_and_check, bind, lift.
  rewrite (localize_naive _ _ Hs), (localize_naive _ _ He). cbn.
  now destruct (instant ws os >? instant we oe).
Qed.

(** Whatever [localize_and_check] returns has passed the comparison. *)
Lemma localize_and_check_ordered resolved w st en du w' :
  localize_and_check resolved w = (Ok (st, en, du), w') ->
  dt_gt st en = Ok false.
Proof.
  destruct resolved as [[s0 e0] d0].
  unfold localize_and_check, bind, lift.
  destruct (localize s0) as [s1|]; [|discriminate].
  destruct (localize e0) as [e1|]; [|discriminate].
  destruct (dt_gt s1 e1) as [[|]|] eqn:Hgt; cbn; try discriminate.
  intros H. injection H as <- <- <- <-. exact Hgt.
Qed.

Lemma localize_and_check_refuses st en du st' en' w :
  localize st = Ok st' -> localize en = Ok en' -> dt_gt st' en' = Ok true ->
  localize_and_check (st, en, du) w =
    (Raise (ValueError (MsgStartAfterEnd st' en')), w).
Proof.
  intros Hs He Hgt. unfold localize_and_check, bind, lift.
  now rewrite Hs, He, Hgt.
Qed.

(** ** [get_interval], once its three arguments are parsed *)

Lemma get_interval_steps input_start input_end input_duration de dd
    w ps w1 pe w2 pd w3 :
  parse_if_given parse_time input_start w = (Ok ps, w1) ->
  parse_if_given parse_time input_end w1 = (Ok pe, w2) ->
  parse_if_given parse_duration input_duration w2 = (Ok pd, w3) ->
  get_interval input_start input_end input_duration de dd w =
    bind (resolve_cases (present ps) (present pe) pd de dd)
      localize_and_check w3.
Proof.
  intros H1 H2 H3. unfold get_interval.
  rewrite (bind_ok _ _ _ _ _ H1), (bind_ok _ _ _ _ _ H2),
    (bind_ok _ _ _ _ _ H3).
  reflexivity.
Qed.

Lemma parse_given_time text w x :
  nonempty text = true -> parses_at w text x ->
  parse_if_given parse_time (Some text) w = (Ok (Some (Some (naive x))), tick w).
Proof.
  intros Hne Hp. apply parse_if_given_ok; [assumption|].
  rewrite parse_time_run. unfold parses_at in Hp. now rewrite Hp.
Qed.

(** The case [resolve_cases] takes, by which values are truthy. *)

Lemma resolve_all_three st en d de dd w :
  d <> 0 ->
  resolve_cases (Some st) (Some en) (Some d) de dd w =
    match get_checked_duration st en (Some d) THRESHOLD_MINS with
    | Ok du => (Ok (st, en, du), w)
    | Raise e => (Raise e, w)
    end.
Proof.
  intros Hnz. unfold resolve_cases, truthy_dt, truthy_td.
  destruct (Z.eqb_spec d 0); [contradiction|].
  cbn [negb andb orb]. unfold bind, need, lift, ret.
  now destruct (get_checked_duration st en (Some d) THRESHOLD_MINS).
Qed.

Lemma resolve_start_end st en du de dd w :
  truthy_td du = false ->
  resolve_cases (Some st) (Some en) du de dd w =
    match get_checked_duration st en du THRESHOLD_MINS with
    | Ok calc => (Ok (st, en, calc), w)
    | Raise e => (Raise e, w)
    end.
Proof.
  intros Hd. unfold resolve_cases, truthy_dt. rewrite Hd.
  cbn [negb andb orb]. unfold bind, need, lift, ret.
  now destruct (get_checked_duration st en du THRESHOLD_MINS).
Qed.

Lemma resolve_start_duration st d de dd w :
  d <> 0 ->
  resolve_cases (Some st) None (Some d) de dd w =
    match dt_add st d with
    | Ok en => (Ok (st, en, d), w)
    | Raise e => (Raise e, w)
    end.
Proof.
  intros Hnz. unfold resolve_cases, truthy_dt, truthy_td.
  destruct (Z.eqb_spec d 0); [contradiction|].
  cbn [negb andb orb]. unfold bind, need, lift, ret.
  now destruct (dt_add st d).
Qed.

Lemma resolve_end_duration en d de dd w :
  d <> 0 ->
  resolve_cases None (Some en) (Some d) de dd w =
    match dt_minus en d with
    | Ok st => (Ok (st, en, d), w)
    | Raise e => (Raise e, w)
    end.
Proof.
  intros Hnz. unfold resolve_cases, truthy_dt, truthy_td.
  destruct (Z.eqb_spec d 0); [contradiction|].
  cbn [negb andb orb]. unfold bind, need, lift, ret.
  now destruct (dt_minus en d).
Qed.

Lemma resolve_start_only st du de dd w :
  truthy_td du = false ->
  resolve_cases (Some st) None du de dd w =
    match parse_duration dd w with
    | (Ok d, w1) =>
        match dt_add st d with
        | Ok en => (Ok (st, en, d), w1)
        | Raise e => (Raise e, w1)
        end
    | (Raise e, w1) => (Raise e, w1)
    end.
Proof.
  intros Hd. unfold resolve_cases, truthy_dt. rewrite Hd.
  cbn [negb andb orb]. unfold bind, need, lift, ret.
  destruct (parse_duration dd w) as [[d|e] w1]; [|reflexivity].
  now destruct (dt_add st d).
Qed.

Lemma resolve_end_only en du de dd w :
  truthy_td du = false ->
  resolve_cases None (Some en) du de dd w =
    match parse_duration dd w with
    | (Ok d, w1) =>
        match dt_minus en d with
        | Ok st => (Ok (st, en, d), w1)
        | Raise e => (Raise e, w1)
        end
    | (Raise e, w1) => (Raise e, w1)
    end.
Proof.
  intros Hd. unfold resolve_cases, truthy_dt. rewrite Hd.
  cbn [negb andb orb]. unfold bind, need, lift, ret.
  destruct (parse_duration dd w) as [[d|e] w1]; [|reflexivity].
  now destruct (dt_minus en d).
Qed.

Lemma resolve_nothing du de dd w :
  truthy_td du = false ->
  resolve_cases None None du de dd w =
    match parse_duration dd (tick w) with
    | (Ok d, w1) =>
        match dateparser_parse (clock (reads w)) de with
        | Some en =>
            match dt_minus en d with
            | Ok st => (Ok (st, en, d), w1)
            | Raise e => (Raise e, w1)
            end
        | None => (Raise TypeError, w1)
        end
    | (Raise e, w1) => (Raise e, w1)
    end.
Proof.
  intros Hd. unfold resolve_cases, truthy_dt. rewrite Hd.
  cbn [negb andb orb]. unfold bind at 1. rewrite parse_time_run.
  unfold bind, need, lift, ret, raise.
  destruct (parse_duration dd (tick w)) as [[d|e] w1]; [|reflexivity].
  destruct (dateparser_parse (clock (reads w)) de) as [en|]; [|reflexivity].
  now destruct (dt_minus en d).
Qed.

Lemma resolve_duration_only d de dd w :
  d <> 0 ->
  resolve_cases None None (Some d) de dd w =
    match dateparser_parse (clock (reads w)) de with
    | Some en =>
        match dt_minus en d with
        | Ok st => (Ok (st, en, d), tick w)
        | Raise e => (Raise e, tick w)
        end
    | None => (Raise TypeError, tick w)
    end.
Proof.
  intros Hnz. unfold resolve_cases, truthy_dt, truthy_td.
  destruct (Z.eqb_spec d 0); [contradiction|].
  cbn [negb andb orb]. unfold bind at 1. rewrite parse_time_run.
  unfold bind, need, lift, ret, raise.
  destruct (dateparser_parse (clock (reads w)) de) as [en|]; [|reflexivity].
  now destruct (dt_minus en d).
Qed.

(** ** Start, end and duration all supplied *)

(** C1, as the code has it: with start, end and a duration other than zero
    all supplied, the consistency check passes exactly when the calculated
    and the supplied duration differ by at most five minutes; the call
    succeeds exactly when moreover the localized start is not after the
    localized end, and then returns the larger of the two durations; a
    failed check raises the [ValueError] that names the supplied duration,
    the start, the end and the tolerance, and a start after the end raises
    the other [ValueError]. *)
Theorem consistency_check_nonzero
    (w w' : world) (ts te td : string) (ws we d os oe : Z)
    (Hts : nonempty ts = true) (Hte : nonempty te = true)
    (Htd : nonempty td = true)
    (Hs : parses_at w ts ws) (He : parses_at (tick w) te we)
    (Hd : parse_duration td (tick (tick w)) = (Ok d, w'))
    (Hnz : d <> 0)
    (Hrange : in_td_range ((we - ws) - d) = true)
    (Hos : tz_utcoffset ws = Some os) (Hoe : tz_utcoffset we = Some oe) :
  let run :=
    get_interval (Some ts) (Some te) (Some td) DEFAULT_END DEFAULT_DURATION w in
  let consistent :=
    Z.abs ((we - ws) - d) <= THRESHOLD_MINS * US_PER_MINUTE in
  let ordered := instant ws os <= instant we oe in
  (is_ok (get_checked_duration (naive ws) (naive we) (Some d) THRESHOLD_MINS)
     = true <-> consistent)
  /\ (is_ok (fst run) = true <-> consistent /\ ordered)
  /\ (consistent -> ordered ->
      run = (Ok (aware ws os, aware we oe, Z.max d (we - ws)), w'))
  /\ (consistent -> ~ ordered ->
      run = (Raise (ValueError
                      (MsgStartAfterEnd (aware ws os) (aware we oe))), w'))
  /\ (~ consistent ->
      run = (Raise (ValueError
                      (MsgInconsistentDuration d (naive ws) (naive we)
                         THRESHOLD_MINS)), w')).
Proof.
  intros run consistent ordered.
  assert (Hchk := get_checked_duration_nonzero (naive ws) (naive we) d
                    (we - ws) eq_refl Hnz Hrange).
  assert (Hrun : run =
    match get_checked_duration (naive ws) (naive we) (Some d) THRESHOLD_MINS with
    | Ok du => localize_and_check (naive ws, naive we, du) w'
    | Raise e => (Raise e, w')
    end).
  { unfold run.
    rewrite (get_interval_steps _ _ _ _ _ _ _ _ _ _ _ _
               (parse_given_time _ _ _ Hts Hs)
               (parse_given_time _ _ _ Hte He)
               (parse_if_given_ok _ _ _ _ _ Htd Hd)).
    unfold bind, present. rewrite (resolve_all_three _ _ _ _ _ _ Hnz).
    now destruct (get_checked_duration _ _ _ _). }
  rewrite Hchk in Hrun. rewrite Hchk.
  destruct (Z.gtb_spec (Z.abs (we - ws - d)) (THRESHOLD_MINS * US_PER_MINUTE))
    as [Hbad | Hgood].
  - (* the durations disagree *)
    assert (Hn : ~ consistent) by (unfold consistent; lia).
    rewrite Hrun. cbn [is_ok fst].
    repeat split; intros; try discriminate; tauto.
  - (* the durations agree *)
    assert (Hc : consistent) by (unfold consistent; lia).
    rewrite (localize_and_check_naive _ _ _ _ _ _ Hos Hoe) in Hrun.
    rewrite Hrun.
    destruct (Z.gtb_spec (instant ws os) (instant we oe)) as [Hgt | Hle].
    + assert (Hno : ~ ordered) by (unfold ordered; lia).
      cbn [is_ok fst]. repeat split; intros; try discriminate; tauto.
    + assert (Hord : ordered) by (unfold ordered; lia).
      cbn [is_ok fst]. repeat split; intros; try discriminate; tauto.
Qed.

(** ** Two of the three supplied *)

(** C2, as the code has it: with start and end supplied and no duration,
    the call returns when the localized start is not after the localized
    end, and the duration of its triple is then exactly the end minus the
    start as they were parsed, on the wall clock; when the localized start
    is after the localized end it raises the start-after-end [ValueError].
    The returned end minus the returned start is that duration less the
    change of UTC offset between them: the same when both have one offset,
    in which case the order on the wall clock and the order of the
    localized times agree as well. *)
Theorem duration_is_wall_clock_difference
    (w : world) (ts te : string) (input_duration : option string)
    (ws we os oe : Z)
    (Hts : nonempty ts = true) (Hte : nonempty te = true)
    (Hnone : truthy_str input_duration = false)
    (Hs : parses_at w ts ws) (He : parses_at (tick w) te we)
    (Hos : tz_utcoffset ws = Some os) (Hoe : tz_utcoffset we = Some oe) :
  let run :=
    get_interval (Some ts) (Some te) input_duration
      DEFAULT_END DEFAULT_DURATION w in
  let st := aware ws os in
  let en := aware we oe in
  (instant ws os <= instant we oe ->
   run = (Ok (st, en, we - ws), tick (tick w)))
  /\ (instant we oe < instant ws os ->
      run = (Raise (ValueError (MsgStartAfterEnd st en)), tick (tick w)))
  /\ dt_sub en st = Ok ((we - ws) - (oe - os))
  /\ (os = oe ->
      (instant ws os <= instant we oe <-> ws <= we)
      /\ dt_sub en st = Ok (we - ws)).
Proof.
  intros run st en.
  assert (Hrun : run =
    (if instant ws os >? instant we oe
     then Raise (ValueError (MsgStartAfterEnd st en))
     else Ok (st, en, we - ws), tick (tick w))).
  { unfold run.
    rewrite (get_interval_steps _ _ _ _ _ _ _ _ _ _ _ _
               (parse_given_time _ _ _ Hts Hs)
               (parse_given_time _ _ _ Hte He)
               (parse_if_given_absent _ _ _ Hnone)).
    unfold bind, present. rewrite resolve_start_end by reflexivity.
    rewrite (get_checked_duration_absent_or_zero _ _ None (we - ws))
      by reflexivity.
    now rewrite (localize_and_check_naive _ _ _ _ _ _ Hos Hoe). }
  repeat split.
  - rewrite Hrun.
    destruct (Z.gtb_spec (instant ws os) (instant we oe)); [lia|reflexivity].
  - rewrite Hrun.
    destruct (Z.gtb_spec (instant ws os) (instant we oe)); [reflexivity|lia].
  - unfold dt_sub, en, st, instant. cbn. f_equal. lia.
  - subst oe. unfold instant in *. lia.
  - subst oe. unfold instant in *. lia.
  - subst oe. unfold dt_sub, en, st, instant. cbn. f_equal. lia.
Qed.

(** C3, as the code has it: with exactly a start and a duration other than
    zero supplied the end is start + duration, and with exactly an end and
    a duration other than zero supplied the start is end - duration; the
    call returns these, localized, with the supplied duration when the
    localized start is not after the localized end, and raises the
    start-after-end [ValueError] when it is. *)
Theorem missing_end_or_start_is_derived
    (w w' : world) (tx td : string) (absent : option string) (x d : Z)
    (Htx : nonempty tx = true) (Htd : nonempty td = true)
    (Habsent : truthy_str absent = false)
    (Hx : parses_at w tx x)
    (Hd : parse_duration td (tick w) = (Ok d, w'))
    (Hnz : d <> 0) :
  (forall os oe,
      in_wall_range (x + d) = true ->
      tz_utcoffset x = Some os -> tz_utcoffset (x + d) = Some oe ->
      get_interval (Some tx) absent (Some td) DEFAULT_END DEFAULT_DURATION w =
        if instant x os >? instant (x + d) oe
        then (Raise (ValueError (MsgStartAfterEnd (aware x os)
                                   (aware (x + d) oe))), w')
        else (Ok (aware x os, aware (x + d) oe, d), w'))
  /\ (forall os oe,
      in_wall_range (x - d) = true ->
      tz_utcoffset (x - d) = Some os -> tz_utcoffset x = Some oe ->
      get_interval absent (Some tx) (Some td) DEFAULT_END DEFAULT_DURATION w =
        if instant (x - d) os >? instant x oe
        then (Raise (ValueError (MsgStartAfterEnd (aware (x - d) os)
                                   (aware x oe))), w')
        else (Ok (aware (x - d) os, aware x oe, d), w')).
Proof.
  split; intros os oe Hr Hos Hoe.
  - rewrite (get_interval_steps _ _ _ _ _ _ _ _ _ _ _ _
               (parse_given_time _ _ _ Htx Hx)
               (parse_if_given_absent _ _ _ Habsent)
               (parse_if_given_ok _ _ _ _ _ Htd Hd)).
    unfold bind, present. rewrite (resolve_start_duration _ _ _ _ _ Hnz).
    unfold dt_add. cbn [wall naive utcoffset]. rewrite Hr.
    change (mk_datetime (x + d) None) with (naive (x + d)).
    rewrite (localize_and_check_naive _ _ _ _ _ _ Hos Hoe).
    now destruct (instant x os >? instant (x + d) oe).
  - rewrite (get_interval_steps _ _ _ _ _ _ _ _ _ _ _ _
               (parse_if_given_absent _ _ _ Habsent)
               (parse_given_time _ _ _ Htx Hx)
               (parse_if_given_ok _ _ _ _ _ Htd Hd)).
    unfold bind, present. rewrite (resolve_end_duration _ _ _ _ _ Hnz).
    unfold dt_minus. cbn [wall naive utcoffset]. rewrite Hr.
    change (mk_datetime (x - d) None) with (naive (x - d)).
    rewrite (localize_and_check_naive _ _ _ _ _ _ Hos Hoe).
    now destruct (instant (x - d) os >? instant x oe).
Qed.

(** ** Nothing supplied *)

(** C4: with no start, end or duration supplied, the end is what
    [parse_time] makes of "now", the current time, the duration is the
    eight hours of the default text, and the start is eight hours before
    the end. *)
Theorem defaults_when_nothing_supplied
    (w : world) (input_start input_end input_duration : option string)
    (os oe : Z)
    (Hstart : truthy_str input_start = false)
    (Hend : truthy_str input_end = false)
    (Hduration : truthy_str input_duration = false)
    (Hnow : parses_at w DEFAULT_END (clock (reads w)))
    (Height : reads_as_hours DEFAULT_DURATION (8 * US_PER_HOUR))
    (Hr : in_wall_range (clock (reads w) - 8 * US_PER_HOUR) = true)
    (Hos : tz_utcoffset (clock (reads w) - 8 * US_PER_HOUR) = Some os)
    (Hoe : tz_utcoffset (clock (reads w)) = Some oe)
    (Hle : instant (clock (reads w) - 8 * US_PER_HOUR) os
           <= instant (clock (reads w)) oe) :
  let now := clock (reads w) in
  get_interval input_start input_end input_duration
    DEFAULT_END DEFAULT_DURATION w
  = (Ok (aware (now - 8 * US_PER_HOUR) os, aware now oe, 8 * US_PER_HOUR),
     tick w).
Proof.
  intros now.
  rewrite (get_interval_steps _ _ _ _ _ _ _ _ _ _ _ _
             (parse_if_given_absent _ _ _ Hstart)
             (parse_if_given_absent _ _ _ Hend)
             (parse_if_given_absent _ _ _ Hduration)).
  unfold bind, present. rewrite resolve_nothing by reflexivity.
  rewrite (parse_duration_numeric _ _ _ Height).
  unfold parses_at in Hnow. rewrite Hnow.
  unfold dt_minus. cbn [wall naive utcoffset]. rewrite Hr.
  change (mk_datetime (clock (reads w) - 8 * US_PER_HOUR) None)
    with (naive (clock (reads w) - 8 * US_PER_HOUR)).
  rewrite (localize_and_check_naive _ _ _ _ _ _ Hos Hoe).
  destruct (Z.gtb_spec (instant (clock (reads w) - 8 * US_PER_HOUR) os)
              (instant (clock (reads w)) oe)); [lia|reflexivity].
Qed.

(** ** What [get_interval] leaves behind *)

Lemma silent_ret {A : Type} (a : A) : silent (ret a).
Proof. intros w. reflexivity. Qed.

Lemma silent_raise {A : Type} (e : exn) : silent (@raise A e).
Proof. intros w. reflexivity. Qed.

Lemma silent_lift {A : Type} (r : result A) : silent (lift r).
Proof. intros w. reflexivity. Qed.

Lemma silent_need {A : Type} (o : option A) : silent (need o).
Proof. destruct o; intros w; reflexivity. Qed.

Lemma silent_now : silent datetime_now.
Proof. intros w. reflexivity. Qed.

Lemma silent_bind {A B : Type} (m : M A) (k : A -> M B) :
  silent m -> (forall a, silent (k a)) -> silent (bind m k).
Proof.
  intros Hm Hk w. unfold bind. specialize (Hm w).
  destruct (m w) as [[a|e] w1]; cbn [snd] in *; [|exact Hm].
  now rewrite (Hk a w1).
Qed.

Lemma silent_try {A : Type} (body handler : M A) :
  silent body -> silent handler -> silent (try_except_ValueError body handler).
Proof.
  intros Hb Hh w. unfold try_except_ValueError. specialize (Hb w).
  destruct (body w) as [[a|[msg| |]] w1]; cbn [snd] in *; try exact Hb.
  now rewrite (Hh w1).
Qed.

Lemma silent_parse_time text : silent (parse_time text).
Proof.
  apply silent_bind; [apply silent_now | intros; apply silent_ret].
Qed.

Lemma silent_parse_duration text : silent (parse_duration text).
Proof.
  apply silent_try.
  - apply silent_bind; [|intros; apply silent_lift].
    unfold float. destruct (float_of_string text);
      [apply silent_ret | apply silent_raise].
  - apply silent_bind; [apply silent_now|]. intros now.
    destruct (pdt_parseDT text now) as [t st].
    destruct (st =? 0); [apply silent_raise | apply silent_ret].
Qed.

Lemma silent_parse_if_given {A : Type} (parse : string -> M A) input :
  (forall text, silent (parse text)) -> silent (parse_if_given parse input).
Proof.
  intros Hp. destruct input as [text|]; cbn; [|apply silent_ret].
  destruct (nonempty text); [|apply silent_ret].
  apply silent_bind; [apply Hp | intros; apply silent_ret].
Qed.

Lemma silent_localize_and_check resolved :
  silent (localize_and_check resolved).
Proof.
  destruct resolved as [[st en] du]. unfold localize_and_check.
  repeat (apply silent_bind; [apply silent_lift | intros]).
  destruct a1; [apply silent_raise | apply silent_ret].
Qed.

Ltac silent_steps :=
  repeat first
    [ apply silent_ret | apply silent_raise | apply silent_lift
    | apply silent_need | apply silent_parse_time
    | apply silent_parse_duration
    | (apply silent_bind; [|intros]) ].

Lemma silent_resolve_cases st en du de dd :
  silent (resolve_cases st en du de dd).
Proof.
  unfold resolve_cases.
  destruct (truthy_dt st), (truthy_dt en), (truthy_td du);
    cbn [andb orb negb]; silent_steps.
Qed.

Lemma silent_get_interval input_start input_end input_duration de dd :
  silent (get_interval input_start input_end input_duration de dd).
Proof.
  unfold get_interval.
  repeat (apply silent_bind;
          [ first [ apply silent_parse_if_given;
                    first [ apply silent_parse_time
                          | apply silent_parse_duration ]
                  | apply silent_resolve_cases ]
          | intros ]).
  apply silent_localize_and_check.
Qed.

(** ** The chain of cases is exhaustive *)

Lemma never_invalid_ret {A : Type} (a : A) : never_invalid (ret a).
Proof. intros w. discriminate. Qed.

Lemma never_invalid_raise {A : Type} (e : exn) :
  e <> ValueError MsgInvalidCombination -> never_invalid (@raise A e).
Proof. intros He w H. cbn in H. congruence. Qed.

Lemma never_invalid_lift {A : Type} (r : result A) :
  r <> Raise (ValueError MsgInvalidCombination) -> never_invalid (lift r).
Proof. intros Hr w. exact Hr. Qed.

Lemma never_invalid_need {A : Type} (o : option A) : never_invalid (need o).
Proof. destruct o; intros w; discriminate. Qed.

Lemma never_invalid_bind {A B : Type} (m : M A) (k : A -> M B) :
  never_invalid m -> (forall a, never_invalid (k a)) ->
  never_invalid (bind m k).
Proof.
  intros Hm Hk w. unfold bind. specialize (Hm w).
  destruct (m w) as [[a|e] w1]; cbn [fst] in *; [apply Hk|].
  intros H. apply Hm. congruence.
Qed.

Lemma never_invalid_parse_time text : never_invalid (parse_time text).
Proof. intros w. discriminate. Qed.

Lemma never_invalid_parse_duration text : never_invalid (parse_duration text).
Proof.
  intros w. unfold parse_duration, try_except_ValueError.
  destruct (bind (float text) _ w) as [[d|[msg| |]] w1]; try discriminate.
  unfold bind, datetime_now.
  destruct (pdt_parseDT text (clock (reads w1))) as [t st].
  destruct (st =? 0); discriminate.
Qed.

Lemma get_checked_duration_valid st en check :
  get_checked_duration st en check THRESHOLD_MINS
  <> Raise (ValueError MsgInvalidCombination).
Proof.
  unfold get_checked_duration, dt_sub, td_sub.
  destruct (utcoffset en), (utcoffset st); try discriminate;
    destruct check as [c|]; try discriminate;
    destruct (c =? 0); try discriminate;
    destruct (in_td_range _); try discriminate;
    destruct (_ >? _); discriminate.
Qed.

Lemma dt_add_valid a d :
  dt_add a d <> Raise (ValueError MsgInvalidCombination).
Proof. unfold dt_add. destruct (in_wall_range _); discriminate. Qed.

Lemma dt_minus_valid a d :
  dt_minus a d <> Raise (ValueError MsgInvalidCombination).
Proof. unfold dt_minus. destruct (in_wall_range _); discriminate. Qed.

Lemma never_invalid_localize_and_check resolved :
  never_invalid (localize_and_check resolved).
Proof.
  destruct resolved as [[st en] du]. intros w.
  unfold localize_and_check, bind, lift, localize, dt_gt.
  destruct (utcoffset st); [discriminate|].
  destruct (tz_utcoffset (wall st)); [|discriminate].
  destruct (utcoffset en); [discriminate|].
  destruct (tz_utcoffset (wall en)); [|discriminate].
  cbn. destruct (_ >? _); discriminate.
Qed.

Ltac valid_steps :=
  repeat first
    [ apply never_invalid_ret | apply never_invalid_need
    | apply never_invalid_parse_time | apply never_invalid_parse_duration
    | (apply never_invalid_lift;
       first [ apply get_checked_duration_valid | apply dt_add_valid
             | apply dt_minus_valid ])
    | (apply never_invalid_bind; [|intros]) ].

Lemma never_invalid_resolve_cases st en du de dd :
  never_invalid (resolve_cases st en du de dd).
Proof.
  unfold resolve_cases.
  destruct (truthy_dt st), (truthy_dt en), (truthy_td du);
    cbn [andb orb negb]; valid_steps.
Qed.

(** C9: whichever of start, end and duration are present, one of the eight
    guards of the chain holds, so the final branch is never taken: the call
    never ends in the "Invalid combination" error and never prints the
    debugging line (it prints nothing at all). *)
Theorem case_split_exhaustive :
  (forall s e d : bool, existsb (fun g => g) (guards s e d) = true)
  /\ (forall start end_ duration de dd,
        never_invalid (resolve_cases start end_ duration de dd)
        /\ silent (resolve_cases start end_ duration de dd))
  /\ (forall input_start input_end input_duration de dd,
        never_invalid (get_interval input_start input_end input_duration de dd)
        /\ silent (get_interval input_start input_end input_duration de dd)).
Proof.
  split; [|split].
  - now intros [|] [|] [|].
  - intros. split;
      [apply never_invalid_resolve_cases | apply silent_resolve_cases].
  - intros. split; [|apply silent_get_interval].
    unfold get_interval.
    repeat (apply never_invalid_bind; [|intros]).
    + destruct input_start as [t|]; cbn; [|apply never_invalid_ret].
      destruct (nonempty t); valid_steps.
    + destruct input_end as [t|]; cbn; [|apply never_invalid_ret].
      destruct (nonempty t); valid_steps.
    + destruct input_duration as [t|]; cbn; [|apply never_invalid_ret].
      destruct (nonempty t); valid_steps.
    + apply never_invalid_resolve_cases.
    + apply never_invalid_localize_and_check.
Qed.

(** ** Validation comes before the calendar *)

Lemma silent_quiet {A : Type} (m : M A) : silent m -> quiet m.
Proof. intros H w. now rewrite H. Qed.

Lemma quiet_ret {A : Type} (a : A) : quiet (ret a).
Proof. intros w. reflexivity. Qed.

Lemma quiet_print line : quiet (print line).
Proof.
  intros w. unfold print, emit. cbn [snd trace].
  rewrite filter_app. cbn. now rewrite app_nil_r.
Qed.

Lemma quiet_bind {A B : Type} (m : M A) (k : A -> M B) :
  quiet m -> (forall a, quiet (k a)) -> quiet (bind m k).
Proof.
  intros Hm Hk w. unfold bind. specialize (Hm w).
  destruct (m w) as [[a|e] w1]; cbn [snd] in *; [|exact Hm].
  now rewrite (Hk a w1).
Qed.

Lemma quiet_when b (m : M unit) : quiet m -> quiet (when b m).
Proof. destruct b; [trivial | intros _; apply quiet_ret]. Qed.

Lemma quiet_print_interval i : quiet (print_interval i).
Proof. destruct i as [[st en] du]. apply quiet_print. Qed.

Lemma quiet_get_current_interval a verbose :
  quiet (get_current_interval a verbose).
Proof.
  unfold get_current_interval.
  apply quiet_bind; [apply silent_quiet, silent_get_interval|]. intros ci.
  apply quiet_bind; [|intros; apply quiet_ret].
  apply quiet_when, quiet_bind;
    [apply quiet_print | intros; apply quiet_print_interval].
Qed.

Lemma quiet_get_next_interval a ci verbose :
  quiet (get_next_interval a ci verbose).
Proof.
  unfold get_next_interval.
  destruct (negb (prediction_requested a)); [apply quiet_ret|].
  apply quiet_bind; [apply silent_quiet, silent_parse_duration|]. intros off.
  apply quiet_bind.
  - destruct (negb _); [|apply quiet_ret].
    destruct ci as [[s0 e0] d0].
    apply quiet_bind; [apply silent_quiet, silent_lift|].
    intros; apply quiet_ret.
  - intros ns.
    apply quiet_bind; [apply silent_quiet, silent_get_interval|]. intros ni.
    apply quiet_bind; [|intros; apply quiet_ret].
    apply quiet_when, quiet_bind;
      [apply quiet_print | intros; apply quiet_print_interval].
Qed.

Lemma bind_inv_ok {A B : Type} (m : M A) (k : A -> M B) w b w' :
  bind m k w = (Ok b, w') ->
  exists a w1, m w = (Ok a, w1) /\ k a w1 = (Ok b, w').
Proof.
  unfold bind. destruct (m w) as [[a|e] w1]; [|discriminate].
  intros H. now exists a, w1.
Qed.

(** C5: [get_interval] never returns a start after its end, since inputs
    that resolve to one end in the start-after-end [ValueError]; and in
    [main] both intervals are resolved, and so validated, before the first
    request goes to the calendar service. *)
Theorem start_never_after_end :
  (forall input_start input_end input_duration de dd w st en du w',
      get_interval input_start input_end input_duration de dd w
        = (Ok (st, en, du), w') ->
      dt_gt st en = Ok false)
  /\ (forall input_start input_end input_duration de dd
             w ps w1 pe w2 pd w3 st en du w4 st' en',
      parse_if_given parse_time input_start w = (Ok ps, w1) ->
      parse_if_given parse_time input_end w1 = (Ok pe, w2) ->
      parse_if_given parse_duration input_duration w2 = (Ok pd, w3) ->
      resolve_cases (present ps) (present pe) pd de dd w3
        = (Ok (st, en, du), w4) ->
      localize st = Ok st' -> localize en = Ok en' ->
      dt_gt st' en' = Ok true ->
      get_interval input_start input_end input_duration de dd w
        = (Raise (ValueError (MsgStartAfterEnd st' en')), w4))
  /\ (forall a w r w',
      no_requests w -> main a w = (r, w') -> ~ no_requests w' ->
      exists cur w1 nxt w2,
        get_current_interval a true w = (Ok cur, w1)
        /\ get_next_interval a cur true w1 = (Ok nxt, w2)
        /\ no_requests w2).
Proof.
  split; [|split].
  - intros * H. unfold get_interval in H.
    apply bind_inv_ok in H as (ps & w1 & _ & H).
    apply bind_inv_ok in H as (pe & w2 & _ & H).
    apply bind_inv_ok in H as (pd & w3 & _ & H).
    apply bind_inv_ok in H as (resolved & w4 & _ & H).
    exact (localize_and_check_ordered _ _ _ _ _ _ H).
  - intros * H1 H2 H3 H4 Hs He Hgt.
    rewrite (get_interval_steps _ _ _ _ _ _ _ _ _ _ _ _ H1 H2 H3).
    rewrite (bind_ok _ _ _ _ _ H4).
    now apply localize_and_check_refuses.
  - intros a w r w' Hq Hmain Hreq. unfold main in Hmain.
    pose proof (quiet_get_current_interval a true w) as Hc.
    unfold bind at 1 in Hmain.
    destruct (get_current_interval a true w) as [[cur|e] w1] eqn:Hcur;
      cbn [snd] in Hc.
    2:{ injection Hmain as _ <-. exfalso. apply Hreq.
        unfold no_requests in *. congruence. }
    pose proof (quiet_get_next_interval a cur true w1) as Hn.
    unfold bind at 1 in Hmain.
    destruct (get_next_interval a cur true w1) as [[nxt|e] w2] eqn:Hnxt;
      cbn [snd] in Hn.
    2:{ injection Hmain as _ <-. exfalso. apply Hreq.
        unfold no_requests in *. congruence. }
    exists cur, w1, nxt, w2. repeat split; [exact Hnxt|].
    unfold no_requests in *. congruence.
Qed.

(** ** A duration of zero *)

(** C10: a supplied duration that parses to zero is treated as if none had
    been supplied: the chain of cases cannot tell it from an absent one;
    with start and end supplied no consistency check is made and the
    duration returned is end - start; with only a start supplied the
    default duration of eight hours is used. *)
Theorem zero_duration_is_absent
    (w w' : world) (ts te td : string) (absent : option string)
    (ws we : Z)
    (Hts : nonempty ts = true) (Hte : nonempty te = true)
    (Htd : nonempty td = true) (Habsent : truthy_str absent = false)
    (Hs : parses_at w ts ws) :
  (forall st en de dd w0,
      resolve_cases st en (Some 0) de dd w0 = resolve_cases st en None de dd w0)
  /\ (forall os oe,
      parses_at (tick w) te we ->
      parse_duration td (tick (tick w)) = (Ok 0, w') ->
      tz_utcoffset ws = Some os -> tz_utcoffset we = Some oe ->
      instant ws os <= instant we oe ->
      get_interval (Some ts) (Some te) (Some td)
        DEFAULT_END DEFAULT_DURATION w
      = (Ok (aware ws os, aware we oe, we - ws), w'))
  /\ (forall os oe,
      parse_duration td (tick w) = (Ok 0, w') ->
      reads_as_hours DEFAULT_DURATION (8 * US_PER_HOUR) ->
      in_wall_range (ws + 8 * US_PER_HOUR) = true ->
      tz_utcoffset ws = Some os ->
      tz_utcoffset (ws + 8 * US_PER_HOUR) = Some oe ->
      instant ws os <= instant (ws + 8 * US_PER_HOUR) oe ->
      get_interval (Some ts) absent (Some td)
        DEFAULT_END DEFAULT_DURATION w
      = (Ok (aware ws os, aware (ws + 8 * US_PER_HOUR) oe, 8 * US_PER_HOUR),
         w')).
Proof.
  split; [|split].
  - intros st en de dd w0.
    destruct st as [st|], en as [en|];
      [ rewrite !resolve_start_end by reflexivity
      | rewrite !resolve_start_only by reflexivity
      | rewrite !resolve_end_only by reflexivity
      | rewrite !resolve_nothing by reflexivity ]; reflexivity.
  - intros os oe He Hd Hos Hoe Hle.
    rewrite (get_interval_steps _ _ _ _ _ _ _ _ _ _ _ _
               (parse_given_time _ _ _ Hts Hs)
               (parse_given_time _ _ _ Hte He)
               (parse_if_given_ok _ _ _ _ _ Htd Hd)).
    unfold bind, present. rewrite resolve_start_end by reflexivity.
    rewrite (get_checked_duration_absent_or_zero _ _ (Some 0) (we - ws))
      by reflexivity.
    rewrite (localize_and_check_naive _ _ _ _ _ _ Hos Hoe).
    destruct (Z.gtb_spec (instant ws os) (instant we oe)); [lia|reflexivity].
  - intros os oe Hd Height Hr Hos Hoe Hle.
    rewrite (get_interval_steps _ _ _ _ _ _ _ _ _ _ _ _
               (parse_given_time _ _ _ Hts Hs)
               (parse_if_given_absent _ _ _ Habsent)
               (parse_if_given_ok _ _ _ _ _ Htd Hd)).
    unfold bind, present. rewrite resolve_start_only by reflexivity.
    rewrite (parse_duration_numeric _ _ _ Height).
    unfold dt_add. cbn [wall naive utcoffset]. rewrite Hr.
    change (mk_datetime (ws + 8 * US_PER_HOUR) None)
      with (naive (ws + 8 * US_PER_HOUR)).
    rewrite (localize_and_check_naive _ _ _ _ _ _ Hos Hoe).
    destruct (Z.gtb_spec (instant ws os) (instant (ws + 8 * US_PER_HOUR) oe));
      [lia|reflexivity].
Qed.

(** ** The predicted interval *)

Lemma pad_nonempty width n acc :
  nonempty acc = true -> nonempty (Calendar.pad width n acc) = true.
Proof.
  revert n acc. induction width as [|k IH]; intros n acc H; cbn; [exact H|].
  now apply IH.
Qed.

Lemma strftime_minute_nonempty dt : nonempty (strftime_minute dt) = true.
Proof.
  unfold strftime_minute, Calendar.year_text.
  destruct (Calendar.ord2ymd _) as [[y m] d].
  destruct (y <? 10); [|destruct (y <? 100); [|destruct (y <? 1000)]];
    now repeat (cbn [Calendar.pad]; apply pad_nonempty).
Qed.

(** C6, as the code has it: when a prediction is requested and no next
    start, end or duration is supplied, the next start is the wall clock of
    the current end plus the parsed offset as [strftime] prints it and
    [parse_time] reads it back, that is, cut to the whole minute, and
    localized anew; the next duration is the default eight hours and the
    next end is eight hours after that start.  Against the current end plus
    the offset, the next start is earlier by the seconds and microseconds
    cut off and by the change of UTC offset; the two are the same when
    nothing is cut off and the offset is unchanged. *)
Theorem predicted_start_is_end_plus_offset_to_the_minute
    (a : args) (s0 e0 : datetime) (d0 : timedelta) (verbose : bool)
    (w w1 : world) (off os oe : Z)
    (Hrequested : prediction_requested a = true)
    (Hns : truthy_str (next_start a) = false)
    (Hne : truthy_str (next_end a) = false)
    (Hnd : truthy_str (next_duration a) = false)
    (Hoff : parse_duration (default_offset a) w = (Ok off, w1))
    (Hrange : in_wall_range (wall e0 + off) = true)
    (Hback : parses_at w1
               (strftime_minute (mk_datetime (wall e0 + off) (utcoffset e0)))
               (floor_minute (wall e0 + off)))
    (Height : reads_as_hours DEFAULT_DURATION (8 * US_PER_HOUR))
    (Hrange' :
       in_wall_range (floor_minute (wall e0 + off) + 8 * US_PER_HOUR) = true)
    (Hos : tz_utcoffset (floor_minute (wall e0 + off)) = Some os)
    (Hoe : tz_utcoffset (floor_minute (wall e0 + off) + 8 * US_PER_HOUR)
           = Some oe)
    (Hle : instant (floor_minute (wall e0 + off)) os
           <= instant (floor_minute (wall e0 + off) + 8 * US_PER_HOUR) oe) :
  let predicted := floor_minute (wall e0 + off) in
  let shifted := mk_datetime (wall e0 + off) (utcoffset e0) in
  fst (get_next_interval a (s0, e0, d0) verbose w)
  = Ok (Some (aware predicted os,
              aware (predicted + 8 * US_PER_HOUR) oe,
              8 * US_PER_HOUR))
  /\ dt_add e0 off = Ok shifted
  /\ (forall o0, utcoffset e0 = Some o0 ->
      dt_sub (aware predicted os) shifted
      = Ok (- ((wall e0 + off) mod US_PER_MINUTE) - (os - o0))
      /\ ((wall e0 + off) mod US_PER_MINUTE = 0 -> os = o0 ->
          aware predicted os = shifted)).
Proof.
  intros predicted shifted. subst predicted shifted.
  split; [|split;
    [ unfold dt_add; now rewrite Hrange
    | intros o0 Ho0; unfold dt_sub, aware, instant, floor_minute;
      cbn [wall utcoffset]; rewrite Ho0; split;
      [ f_equal; lia
      | intros Hzero ->; rewrite Hzero; f_equal; lia ] ]].
  unfold get_next_interval.
  rewrite Hrequested, Hns, Hne, Hnd. cbn [negb orb].
  rewrite (bind_ok _ _ _ _ _ Hoff).
  unfold dt_add at 1. rewrite Hrange.
  unfold bind at 1. unfold bind at 1. unfold lift, ret.
  set (text := strftime_minute _) in *.
  set (fl := floor_minute (wall e0 + off)) in *.
  assert (Hrun :
    get_interval (Some text) (next_end a) (next_duration a)
      DEFAULT_END DEFAULT_DURATION w1
    = (Ok (aware fl os, aware (fl + 8 * US_PER_HOUR) oe, 8 * US_PER_HOUR),
       tick w1)).
  { rewrite (get_interval_steps _ _ _ _ _ _ _ _ _ _ _ _
               (parse_given_time _ _ _ (strftime_minute_nonempty _) Hback)
               (parse_if_given_absent _ _ _ Hne)
               (parse_if_given_absent _ _ _ Hnd)).
    unfold bind, present. rewrite resolve_start_only by reflexivity.
    rewrite (parse_duration_numeric _ _ _ Height).
    unfold dt_add. cbn [wall naive utcoffset]. rewrite Hrange'.
    change (mk_datetime (fl + 8 * US_PER_HOUR) None)
      with (naive (fl + 8 * US_PER_HOUR)).
    rewrite (localize_and_check_naive _ _ _ _ _ _ Hos Hoe).
    destruct (Z.gtb_spec (instant fl os)
                (instant (fl + 8 * US_PER_HOUR) oe)); [lia|reflexivity]. }
  rewrite (bind_ok _ _ _ _ _ Hrun).
  destruct verbose; reflexivity.
Qed.

(** ** An unresolved time *)

(** [parse_time] returns whatever [dateparser.parse] returns, [None]
    included; it raises nothing. *)
Lemma parse_time_never_raises text w :
  fst (parse_time text w) = Ok (dateparser_parse (clock (reads w)) text).
Proof. reflexivity. Qed.


(** * Further properties of the script *)

(** ** The duration that is returned *)

Lemma dt_sub_naive a b :
  utcoffset a = None -> utcoffset b = None ->
  dt_sub a b = Ok (wall a - wall b).
Proof. intros Ha Hb. unfold dt_sub. now rewrite Ha, Hb. Qed.

Lemma checked_bounds st en check threshold_mins calc d :
  0 <= threshold_mins ->
  dt_sub en st = Ok calc ->
  get_checked_duration st en check threshold_mins = Ok d ->
  calc <= d <= calc + threshold_mins * US_PER_MINUTE.
Proof.
  intros Hthr Hcalc. unfold get_checked_duration, td_sub. rewrite Hcalc.
  assert (0 <= threshold_mins * US_PER_MINUTE)
    by (unfold US_PER_MINUTE, US_PER_SECOND; lia).
  destruct check as [c|]; [|intros [= <-]; lia].
  destruct (c =? 0); [intros [= <-]; lia|].
  destruct (in_td_range (calc - c)); [|discriminate].
  destruct (Z.gtb_spec (Z.abs (calc - c)) (threshold_mins * US_PER_MINUTE));
    [discriminate|].
  intros [= <-]. lia.
Qed.

(** X1: a duration that [get_checked_duration] returns is never shorter
    than end - start and exceeds it by at most the threshold; it is
    end - start itself when no duration, or a zero one, was given to
    check. *)
Theorem checked_duration_within_threshold
    (st en : datetime) (check : option timedelta)
    (threshold_mins calc d : Z)
    (Hthreshold : 0 <= threshold_mins)
    (Hcalc : dt_sub en st = Ok calc)
    (Hret : get_checked_duration st en check threshold_mins = Ok d) :
  calc <= d <= calc + threshold_mins * US_PER_MINUTE
  /\ (truthy_td check = false -> d = calc)
  /\ (forall c, check = Some c -> c <> 0 ->
      d = Z.max c calc
      /\ Z.abs (calc - c) <= threshold_mins * US_PER_MINUTE).
Proof.
  split; [exact (checked_bounds _ _ _ _ _ _ Hthreshold Hcalc Hret)|].
  unfold get_checked_duration, td_sub in Hret. rewrite Hcalc in Hret.
  split.
  - intros Hfalsy. destruct check as [c|]; [|now injection Hret].
    cbn in Hfalsy. destruct (c =? 0); [now injection Hret|discriminate].
  - intros c -> Hnz. destruct (Z.eqb_spec c 0); [contradiction|].
    destruct (in_td_range (calc - c)); [|discriminate].
    destruct (Z.gtb_spec (Z.abs (calc - c)) (threshold_mins * US_PER_MINUTE));
      [discriminate|].
    injection Hret as <-. split; [reflexivity|lia].
Qed.

Lemma localize_inv dt dt' :
  localize dt = Ok dt' ->
  utcoffset dt = None /\ wall dt' = wall dt /\ utcoffset dt' <> None.
Proof.
  unfold localize. destruct (utcoffset dt); [discriminate|].
  destruct (tz_utcoffset (wall dt)); [|discriminate].
  intros [= <-]. cbn. repeat split. discriminate.
Qed.

Lemma localize_and_check_inv st0 en0 du0 w st en du w' :
  localize_and_check (st0, en0, du0) w = (Ok (st, en, du), w') ->
  localize st0 = Ok st /\ localize en0 = Ok en /\ du = du0.
Proof.
  unfold localize_and_check, bind, lift.
  destruct (localize st0) as [s1|]; [|discriminate].
  destruct (localize en0) as [e1|]; [|discriminate].
  destruct (dt_gt s1 e1) as [[|]|]; cbn; try discriminate.
  now intros [= <- <- <- <-].
Qed.

(** What [resolve_cases] returns: a start or an end that was parsed is
    passed on as it is, and between two naive ends the duration is within
    the threshold of end - start. *)
Lemma resolve_cases_inv s e d de dd w st0 en0 du0 w' :
  resolve_cases s e d de dd w = (Ok (st0, en0, du0), w') ->
  (forall x, s = Some x -> st0 = x)
  /\ (forall y, e = Some y -> en0 = y)
  /\ (utcoffset st0 = None -> utcoffset en0 = None ->
      wall en0 - wall st0 <= du0
      <= wall en0 - wall st0 + THRESHOLD_MINS * US_PER_MINUTE).
Proof.
  assert (Hthr : 0 <= THRESHOLD_MINS) by (unfold THRESHOLD_MINS; lia).
  assert (Hpos : 0 <= THRESHOLD_MINS * US_PER_MINUTE)
    by (unfold THRESHOLD_MINS, US_PER_MINUTE, US_PER_SECOND; lia).
  assert (Hzero : forall o : option timedelta,
            truthy_td o = false \/ exists c, o = Some c /\ c <> 0).
  { intros [c|]; [|now left]. cbn.
    destruct (Z.eqb_spec c 0); [now left|right; now exists c]. }
  intros H.
  destruct s as [st|], e as [en|], (Hzero d) as [Hd | (c & -> & Hc)].
  - rewrite (resolve_start_end _ _ _ _ _ _ Hd) in H.
    destruct (get_checked_duration st en d THRESHOLD_MINS) as [du|] eqn:Hg;
      [|discriminate H].
    injection H as <- <- <- <-.
    split; [|split]; try (now intros ? [= <-]). intros Hs He.
    exact (checked_bounds _ _ _ _ _ _ Hthr (dt_sub_naive _ _ He Hs) Hg).
  - rewrite (resolve_all_three _ _ _ _ _ _ Hc) in H.
    destruct (get_checked_duration st en _ THRESHOLD_MINS) as [du|] eqn:Hg;
      [|discriminate H].
    injection H as <- <- <- <-.
    split; [|split]; try (now intros ? [= <-]). intros Hs He.
    exact (checked_bounds _ _ _ _ _ _ Hthr (dt_sub_naive _ _ He Hs) Hg).
  - rewrite (resolve_start_only _ _ _ _ _ Hd) in H.
    destruct (parse_duration dd w) as [[du|] w1]; [|discriminate H].
    unfold dt_add in H. destruct (in_wall_range _); [|discriminate H].
    injection H as <- <- <- <-. cbn.
    repeat split; try (now intros ? [= <-]); try discriminate; lia.
  - rewrite (resolve_start_duration _ _ _ _ _ Hc) in H.
    unfold dt_add in H. destruct (in_wall_range _); [|discriminate H].
    injection H as <- <- <- <-. cbn.
    repeat split; try (now intros ? [= <-]); try discriminate; lia.
  - rewrite (resolve_end_only _ _ _ _ _ Hd) in H.
    destruct (parse_duration dd w) as [[du|] w1]; [|discriminate H].
    unfold dt_minus in H. destruct (in_wall_range _); [|discriminate H].
    injection H as <- <- <- <-. cbn.
    repeat split; try (now intros ? [= <-]); try discriminate; lia.
  - rewrite (resolve_end_duration _ _ _ _ _ Hc) in H.
    unfold dt_minus in H. destruct (in_wall_range _); [|discriminate H].
    injection H as <- <- <- <-. cbn.
    repeat split; try (now intros ? [= <-]); try discriminate; lia.
  - rewrite (resolve_nothing _ _ _ _ Hd) in H.
    destruct (parse_duration dd (tick w)) as [[du|] w1]; [|discriminate H].
    destruct (dateparser_parse (clock (reads w)) de) as [en|];
      [|discriminate H].
    unfold dt_minus in H. destruct (in_wall_range _); [|discriminate H].
    injection H as <- <- <- <-. cbn.
    repeat split; try discriminate; lia.
  - rewrite (resolve_duration_only _ _ _ _ Hc) in H.
    destruct (dateparser_parse (clock (reads w)) de) as [en|];
      [|discriminate H].
    unfold dt_minus in H. destruct (in_wall_range _); [|discriminate H].
    injection H as <- <- <- <-. cbn.
    repeat split; try discriminate; lia.
Qed.

Lemma get_interval_inv input_start input_end input_duration de dd
    w st en du w' :
  get_interval input_start input_end input_duration de dd w
    = (Ok (st, en, du), w') ->
  exists ps pe pd w3 st0 en0 w4,
    parse_if_given parse_time input_start w = (Ok ps, after_argument input_start w)
    /\ parse_if_given parse_time input_end (after_argument input_start w)
       = (Ok pe, after_argument input_end (after_argument input_start w))
    /\ parse_if_given parse_duration input_duration
         (after_argument input_end (after_argument input_start w))
       = (Ok pd, w3)
    /\ resolve_cases (present ps) (present pe) pd de dd w3
       = (Ok (st0, en0, du), w4)
    /\ localize st0 = Ok st /\ localize en0 = Ok en.
Proof.
  intros H. unfold get_interval in H.
  apply bind_inv_ok in H as (ps & w1 & H1 & H).
  apply bind_inv_ok in H as (pe & w2 & H2 & H).
  apply bind_inv_ok in H as (pd & w3 & H3 & H).
  apply bind_inv_ok in H as ([[st0 en0] du0] & w4 & H4 & H).
  apply localize_and_check_inv in H as (Hs & He & ->).
  assert (Hw : forall input w0 p w0',
             parse_if_given parse_time input w0 = (Ok p, w0') ->
             w0' = after_argument input w0).
  { intros [t|] w0 p w0'; unfold after_argument; cbn; [|now intros [= _ <-]].
    destruct (nonempty t); [|now intros [= _ <-]].
    unfold bind. rewrite parse_time_run. now intros [= _ <-]. }
  pose proof (Hw _ _ _ _ H1) as ->. pose proof (Hw _ _ _ _ H2) as ->.
  now exists ps, pe, pd, w3, st0, en0, w4.
Qed.

(** X2: every triple [get_interval] returns has an aware start and an aware
    end, and its duration is the distance of their wall-clock readings or
    up to five minutes more. *)
Theorem returned_interval_is_coherent
    (input_start input_end input_duration : option string)
    (de dd : string) (w w' : world) (st en : datetime) (du : timedelta)
    (Hret : get_interval input_start input_end input_duration de dd w
            = (Ok (st, en, du), w')) :
  utcoffset st <> None /\ utcoffset en <> None
  /\ wall en - wall st <= du
     <= wall en - wall st + THRESHOLD_MINS * US_PER_MINUTE.
Proof.
  apply get_interval_inv in Hret
    as (ps & pe & pd & w3 & st0 & en0 & w4 & _ & _ & _ & Hr & Hs & He).
  apply localize_inv in Hs as (Hs0 & Hws & Has).
  apply localize_inv in He as (He0 & Hwe & Hae).
  apply resolve_cases_inv in Hr as (_ & _ & Hb).
  rewrite Hws, Hwe. auto.
Qed.


(** ** Times that carry a zone, and texts that cannot be read *)

Lemma parse_time_if_given_run input w :
  exists p,
    parse_if_given parse_time input w = (Ok p, after_argument input w).
Proof.
  unfold after_argument. destruct input as [t|]; cbn; [|now exists None].
  destruct (nonempty t); [|now exists None].
  unfold bind. rewrite parse_time_run. now eexists.
Qed.

(** X3: a start or an end that [dateparser] returns with a zone of its own
    is never accepted: [localize] refuses it, or the subtraction from a
    naive time does, and [get_interval] raises. *)
Theorem aware_time_is_refused
    (input_start input_end input_duration : option string) (de dd : string)
    (w : world) (text : string) (dt : datetime)
    (Hne : nonempty text = true)
    (Haware : utcoffset dt <> None) :
  (input_start = Some text ->
   dateparser_parse (clock (reads w)) text = Some dt ->
   is_ok (fst (get_interval input_start input_end input_duration de dd w))
   = false)
  /\ (input_end = Some text ->
      dateparser_parse (clock (reads (after_argument input_start w))) text
      = Some dt ->
      is_ok (fst (get_interval input_start input_end input_duration de dd w))
      = false).
Proof.
  split; intros Hin Hparse;
    destruct (get_interval input_start input_end input_duration de dd w)
      as [[[[st en] du]|e] w'] eqn:H; try reflexivity; exfalso;
    apply get_interval_inv in H
      as (ps & pe & pd & w3 & st0 & en0 & w4 & H1 & H2 & _ & Hr & Hs & He);
    apply resolve_cases_inv in Hr as (Hst & Hen & _);
    apply localize_inv in Hs as (Hs0 & _); apply localize_inv in He as (He0 & _).
  - subst input_start. cbn in H1. rewrite Hne in H1. unfold bind in H1.
    rewrite parse_time_run, Hparse in H1. injection H1 as <-.
    rewrite (Hst dt eq_refl) in Hs0. contradiction.
  - subst input_end. cbn in H2. rewrite Hne in H2. unfold bind in H2.
    rewrite parse_time_run, Hparse in H2. injection H2 as <-.
    rewrite (Hen dt eq_refl) in He0. contradiction.
Qed.

(** X4: a start text that [dateparser] cannot resolve is the same to
    [get_interval] as no start at all, but for the reading of the clock it
    has cost: nothing is raised for it. *)
Theorem unresolved_start_is_no_start
    (text : string) (input_end input_duration : option string)
    (de dd : string) (w : world)
    (Hne : nonempty text = true)
    (Hnone : dateparser_parse (clock (reads w)) text = None) :
  get_interval (Some text) input_end input_duration de dd w
  = get_interval None input_end input_duration de dd (tick w).
Proof.
  unfold get_interval. unfold bind at 1. cbn [parse_if_given]. rewrite Hne.
  unfold bind at 1. rewrite parse_time_run, Hnone. reflexivity.
Qed.

(** X5: with only a duration other than zero supplied, the end is what
    [parse_time] makes of "now" after the duration has been parsed and the
    start is that end minus the duration. *)
Theorem only_duration_counts_back_from_now
    (w w' : world) (absent_start absent_end : option string) (td : string)
    (d x os oe : Z)
    (Hstart : truthy_str absent_start = false)
    (Hend : truthy_str absent_end = false)
    (Htd : nonempty td = true)
    (Hd : parse_duration td w = (Ok d, w'))
    (Hnz : d <> 0)
    (Hnow : parses_at w' DEFAULT_END x)
    (Hr : in_wall_range (x - d) = true)
    (Hos : tz_utcoffset (x - d) = Some os)
    (Hoe : tz_utcoffset x = Some oe) :
  get_interval absent_start absent_end (Some td)
    DEFAULT_END DEFAULT_DURATION w
  = if instant (x - d) os >? instant x oe
    then (Raise (ValueError (MsgStartAfterEnd (aware (x - d) os)
                               (aware x oe))), tick w')
    else (Ok (aware (x - d) os, aware x oe, d), tick w').
Proof.
  rewrite (get_interval_steps _ _ _ _ _ _ _ _ _ _ _ _
             (parse_if_given_absent _ _ _ Hstart)
             (parse_if_given_absent _ _ _ Hend)
             (parse_if_given_ok _ _ _ _ _ Htd Hd)).
  unfold bind, present. rewrite (resolve_duration_only _ _ _ _ Hnz).
  unfold parses_at in Hnow. rewrite Hnow.
  unfold dt_minus. cbn [wall naive utcoffset]. rewrite Hr.
  change (mk_datetime (x - d) None) with (naive (x - d)).
  rewrite (localize_and_check_naive _ _ _ _ _ _ Hos Hoe).
  now destruct (instant (x - d) os >? instant x oe).
Qed.

(** X6: with only a start supplied the end is the start plus the default
    duration, and with only an end supplied the start is the end minus the
    default duration, whatever [parse_duration] makes of the default
    text. *)
Theorem default_duration_completes_one_end
    (w w' : world) (tx : string) (absent no_duration : option string)
    (x d : Z)
    (Htx : nonempty tx = true)
    (Habsent : truthy_str absent = false)
    (Hno : truthy_str no_duration = false)
    (Hx : parses_at w tx x)
    (Hd : parse_duration DEFAULT_DURATION (tick w) = (Ok d, w')) :
  (forall os oe,
      in_wall_range (x + d) = true ->
      tz_utcoffset x = Some os -> tz_utcoffset (x + d) = Some oe ->
      get_interval (Some tx) absent no_duration
        DEFAULT_END DEFAULT_DURATION w =
        if instant x os >? instant (x + d) oe
        then (Raise (ValueError (MsgStartAfterEnd (aware x os)
                                   (aware (x + d) oe))), w')
        else (Ok (aware x os, aware (x + d) oe, d), w'))
  /\ (forall os oe,
      in_wall_range (x - d) = true ->
      tz_utcoffset (x - d) = Some os -> tz_utcoffset x = Some oe ->
      get_interval absent (Some tx) no_duration
        DEFAULT_END DEFAULT_DURATION w =
        if instant (x - d) os >? instant x oe
        then (Raise (ValueError (MsgStartAfterEnd (aware (x - d) os)
                                   (aware x oe))), w')
        else (Ok (aware (x - d) os, aware x oe, d), w')).
Proof.
  split; intros os oe Hr Hos Hoe.
  - rewrite (get_interval_steps _ _ _ _ _ _ _ _ _ _ _ _
               (parse_given_time _ _ _ Htx Hx)
               (parse_if_given_absent _ _ _ Habsent)
               (parse_if_given_absent _ _ _ Hno)).
    unfold bind, present. rewrite resolve_start_only by reflexivity.
    rewrite Hd. unfold dt_add. cbn [wall naive utcoffset]. rewrite Hr.
    change (mk_datetime (x + d) None) with (naive (x + d)).
    rewrite (localize_and_check_naive _ _ _ _ _ _ Hos Hoe).
    now destruct (instant x os >? instant (x + d) oe).
  - rewrite (get_interval_steps _ _ _ _ _ _ _ _ _ _ _ _
               (parse_if_given_absent _ _ _ Habsent)
               (parse_given_time _ _ _ Htx Hx)
               (parse_if_given_absent _ _ _ Hno)).
    unfold bind, present. rewrite resolve_end_only by reflexivity.
    rewrite Hd. unfold dt_minus. cbn [wall naive utcoffset]. rewrite Hr.
    change (mk_datetime (x - d) None) with (naive (x - d)).
    rewrite (localize_and_check_naive _ _ _ _ _ _ Hos Hoe).
    now destruct (instant (x - d) os >? instant x oe).
Qed.

(** X7: a duration text that [parse_duration] cannot turn into a duration
    stops [get_interval] with the exception [parse_duration] raised,
    whatever start and end were supplied. *)
Theorem unparsed_duration_stops_the_call
    (input_start input_end : option string) (td de dd : string)
    (w w' : world) (e : exn)
    (Htd : nonempty td = true)
    (Hfail : parse_duration td
               (after_argument input_end (after_argument input_start w))
             = (Raise e, w')) :
  get_interval input_start input_end (Some td) de dd w = (Raise e, w').
Proof.
  destruct (parse_time_if_given_run input_start w) as (ps & H1).
  destruct (parse_time_if_given_run input_end (after_argument input_start w))
    as (pe & H2).
  unfold get_interval.
  rewrite (bind_ok _ _ _ _ _ H1), (bind_ok _ _ _ _ _ H2).
  apply bind_raise. now apply parse_if_given_raise.
Qed.

(** X8: when [float] accepts the text and [timedelta] refuses the number
    with an exception other than [ValueError] (an overflow), that exception
    leaves [parse_duration]: the text is not tried as a phrase and the
    clock is not read. *)
Theorem numeric_overflow_is_not_retried
    (text : string) (h : pyfloat) (e : exn) (w : world)
    (Hfloat : float_of_string text = Some h)
    (Hraise : timedelta_of_hours h = Raise e)
    (Hother : forall msg, e <> ValueError msg) :
  parse_duration text w = (Raise e, w).
Proof.
  unfold parse_duration, try_except_ValueError, bind, float, lift.
  rewrite Hfloat. cbn. rewrite Hraise.
  destruct e as [msg| |]; [now destruct (Hother msg)|reflexivity..].
Qed.


(** ** The next interval *)

(** X9: [get_next_interval] answers [None] exactly when no prediction was
    requested, and then it parses nothing, not even the default offset, and
    leaves the world as it was. *)
Theorem no_prediction_unless_requested
    (a : args) (current : interval) (verbose : bool) (w : world) :
  (prediction_requested a = false ->
   get_next_interval a current verbose w = (Ok None, w))
  /\ (forall r w',
      get_next_interval a current verbose w = (Ok r, w') ->
      (r = None <-> prediction_requested a = false)).
Proof.
  split.
  - intros H. unfold get_next_interval. now rewrite H.
  - intros r w' H. unfold get_next_interval in H.
    destruct (prediction_requested a); cbn [negb] in H.
    + apply bind_inv_ok in H as (off & w1 & _ & H).
      apply bind_inv_ok in H as (ns & w2 & _ & H).
      apply bind_inv_ok in H as (ni & w3 & _ & H).
      apply bind_inv_ok in H as (u & w4 & _ & H).
      injection H as <- _. split; discriminate.
    + injection H as <- _. split; reflexivity.
Qed.

(** X10: once a prediction is requested the default offset is parsed first,
    so an offset that [parse_duration] refuses stops [get_next_interval]
    even when a next start, end or duration is supplied and the offset
    would not be used. *)
Theorem refused_offset_stops_the_prediction
    (a : args) (current : interval) (verbose : bool) (w w' : world) (e : exn)
    (Hrequested : prediction_requested a = true)
    (Hfail : parse_duration (default_offset a) w = (Raise e, w')) :
  get_next_interval a current verbose w = (Raise e, w').
Proof.
  unfold get_next_interval. rewrite Hrequested. cbn [negb].
  now apply bind_raise.
Qed.

(** X11: when a next start, end or duration is supplied, the current
    interval has no part in the next one. *)
Theorem supplied_next_interval_ignores_the_current_one
    (a : args) (current current' : interval) (verbose : bool) (w : world)
    (Hsupplied : truthy_str (next_start a) || truthy_str (next_end a)
                 || truthy_str (next_duration a) = true) :
  get_next_interval a current verbose w
  = get_next_interval a current' verbose w.
Proof.
  unfold get_next_interval. rewrite Hsupplied. reflexivity.
Qed.

(** ** What [main] prints and requests *)

Lemma emit_run e w :
  emit e w = (Ok tt, mk_world (reads w) (trace w ++ [e])).
Proof. reflexivity. Qed.

Lemma print_interval_lines heading i w :
  bind (print (OutHeading heading)) (fun _ => print_interval i) w
  = (Ok tt, mk_world (reads w) (trace w ++ interval_lines heading i)).
Proof.
  destruct i as [[st en] du]. unfold bind, print_interval, print, emit.
  cbn. now rewrite <- app_assoc.
Qed.

Lemma get_current_interval_trace a w r w1 :
  get_current_interval a true w = (r, w1) ->
  trace w1 = trace w ++ match r with
                        | Ok i => interval_lines "Current sleep interval:" i
                        | Raise _ => []
                        end.
Proof.
  unfold get_current_interval, when. unfold bind at 1.
  pose proof (silent_get_interval (start a) (end_ a) (duration a)
                DEFAULT_END DEFAULT_DURATION w) as Hs.
  destruct (get_interval _ _ _ _ _ w) as [[i|e] w0]; cbn [snd] in Hs.
  - unfold bind at 1. rewrite print_interval_lines.
    intros [= <- <-]. cbn. now rewrite Hs.
  - intros [= <- <-]. now rewrite Hs, app_nil_r.
Qed.

Lemma get_next_interval_trace a current w r w2 :
  get_next_interval a current true w = (r, w2) ->
  trace w2 = trace w ++ match r with
                        | Ok (Some i) =>
                            interval_lines "Next sleep interval:" i
                        | _ => []
                        end.
Proof.
  unfold get_next_interval, when.
  destruct (negb (prediction_requested a));
    [intros [= <- <-]; now rewrite app_nil_r|].
  unfold bind at 1.
  pose proof (silent_parse_duration (default_offset a) w) as Ho.
  destruct (parse_duration (default_offset a) w) as [[off|e] w0];
    cbn [snd] in Ho; [|intros [= <- <-]; now rewrite Ho, app_nil_r].
  unfold bind at 1.
  destruct current as [[s0 e0] d0].
  assert (Hstep : exists rs,
    (if negb (truthy_str (next_start a) || truthy_str (next_end a)
              || truthy_str (next_duration a))
     then shifted <- lift (dt_add e0 off) ;; ret (Some (strftime_minute shifted))
     else ret (next_start a)) w0 = (rs, w0)).
  { destruct (negb _); [|now eexists].
    unfold bind, lift, ret. destruct (dt_add e0 off); now eexists. }
  destruct Hstep as (rs & Hstep). rewrite Hstep.
  destruct rs as [ns|e]; [|intros [= <- <-]; now rewrite Ho, app_nil_r].
  unfold bind at 1.
  pose proof (silent_get_interval ns (next_end a) (next_duration a)
                DEFAULT_END DEFAULT_DURATION w0) as Hs.
  destruct (get_interval _ _ _ _ _ w0) as [[i|e] w1]; cbn [snd] in Hs.
  - unfold bind at 1. rewrite print_interval_lines.
    intros [= <- <-]. cbn. now rewrite Hs, Ho.
  - intros [= <- <-]. now rewrite Hs, Ho, app_nil_r.
Qed.

(** X12: without [--update-calendar] a run that ends well has resolved the
    current and the next interval and has only printed: the current
    interval under its heading, then the next one under its own if there
    is one; nothing is sent to the calendar service. *)
Theorem dry_run_only_prints
    (a : args) (w w' : world)
    (Hdry : update_calendar a = false)
    (Hrun : main a w = (Ok tt, w')) :
  exists cur nxt w1,
    get_current_interval a true w = (Ok cur, w1)
    /\ get_next_interval a cur true w1 = (Ok nxt, w')
    /\ trace w' = trace w
                  ++ interval_lines "Current sleep interval:" cur
                  ++ match nxt with
                     | Some i => interval_lines "Next sleep interval:" i
                     | None => []
                     end
    /\ filter is_request (trace w') = filter is_request (trace w).
Proof.
  unfold main in Hrun. rewrite Hdry in Hrun. cbn [negb] in Hrun.
  apply bind_inv_ok in Hrun as (cur & w1 & Hc & Hrun).
  apply bind_inv_ok in Hrun as (nxt & w2 & Hn & Hrun).
  injection Hrun as <-.
  exists cur, nxt, w1. split; [exact Hc|]. split; [exact Hn|].
  pose proof (get_current_interval_trace _ _ _ _ Hc) as Tc.
  pose proof (get_next_interval_trace _ _ _ _ _ Hn) as Tn.
  pose proof (quiet_get_current_interval a true w) as Qc.
  pose proof (quiet_get_next_interval a cur true w1) as Qn.
  rewrite Hc in Qc. rewrite Hn in Qn. cbn [snd] in Qc, Qn.
  split; [|congruence].
  rewrite Tn, Tc, <- app_assoc. now destruct nxt.
Qed.

(** X13: when the current interval cannot be resolved, [main] stops with
    the exception [get_interval] raised, and has then printed nothing and
    sent nothing. *)
Theorem failed_current_interval_leaves_no_trace
    (a : args) (w w' : world) (e : exn)
    (Hfail : get_interval (start a) (end_ a) (duration a)
               DEFAULT_END DEFAULT_DURATION w = (Raise e, w')) :
  main a w = (Raise e, w') /\ trace w' = trace w.
Proof.
  assert (Hc : get_current_interval a true w = (Raise e, w'))
    by (unfold get_current_interval; now apply bind_raise).
  split.
  - unfold main. now apply bind_raise.
  - pose proof (get_current_interval_trace _ _ _ _ Hc) as T.
    now rewrite app_nil_r in T.
Qed.


(** ** The calendar *)

Lemma find_first {A : Type} (f : A -> bool) pre c post :
  (forall p, In p pre -> f p = false) -> f c = true ->
  find f (pre ++ c :: post) = Some c.
Proof.
  intros Hpre Hc. induction pre as [|p pre IH]; cbn.
  - now rewrite Hc.
  - rewrite (Hpre p (or_introl eq_refl)). apply IH.
    intros q Hq. apply Hpre. now right.
Qed.

Lemma find_nowhere {A : Type} (f : A -> bool) l :
  (forall p, In p l -> f p = false) -> find f l = None.
Proof.
  intros H. induction l as [|p l IH]; cbn; [reflexivity|].
  rewrite (H p (or_introl eq_refl)). apply IH.
  intros q Hq. apply H. now right.
Qed.

Ltac requests_of_trace :=
  cbn [trace snd fst]; rewrite ?filter_app; cbn [filter is_request];
  rewrite ?app_nil_r, <- ?app_assoc; cbn [app]; try reflexivity.

Lemma get_sleep_calendar_id_run verbose w :
  exists w',
    get_sleep_calendar_id verbose w = (Ok (snd calendar_lookup), w')
    /\ filter is_request (trace w')
       = filter is_request (trace w) ++ fst calendar_lookup.
Proof.
  unfold get_sleep_calendar_id, calendar_lookup, sleep_calendar.
  destruct (find _ calendar_items) as [c|]; destruct verbose;
    unfold bind, when, print, emit, ret; cbn;
    (eexists; split; [reflexivity|]); requests_of_trace.
Qed.

(** X14: [get_sleep_calendar_id] asks once for the list of calendars; when
    one of them is named "Sleep" it returns the id of the first such
    calendar and creates none, and when none is it creates one calendar,
    "Sleep" in the zone America/Los_Angeles, and returns the id the service
    gave it. *)
Theorem sleep_calendar_is_found_or_created (verbose : bool) (w : world) :
  (forall pre c post,
      calendar_items = pre ++ c :: post ->
      (forall p, In p pre -> summary p <> SLEEP_CALENDAR_summary) ->
      summary c = SLEEP_CALENDAR_summary ->
      fst (get_sleep_calendar_id verbose w) = Ok (id c)
      /\ filter is_request (trace (snd (get_sleep_calendar_id verbose w)))
         = filter is_request (trace w) ++ [Request CallCalendarList])
  /\ ((forall c, In c calendar_items ->
                 summary c <> SLEEP_CALENDAR_summary) ->
      fst (get_sleep_calendar_id verbose w) = Ok created_calendar_id
      /\ filter is_request (trace (snd (get_sleep_calendar_id verbose w)))
         = filter is_request (trace w)
           ++ [Request CallCalendarList;
               Request (CallCalendarInsert "Sleep" "America/Los_Angeles")]).
Proof.
  destruct (get_sleep_calendar_id_run verbose w) as (w' & Hrun & Htrace).
  rewrite Hrun. cbn [fst snd]. rewrite Htrace.
  unfold calendar_lookup, sleep_calendar. split.
  - intros pre c post Hitems Hpre Hc.
    rewrite Hitems, (find_first _ pre c post); [now split| |].
    + intros p Hp. apply String.eqb_neq. now apply Hpre.
    + now apply String.eqb_eq.
  - intros Hnone. rewrite find_nowhere; [now split|].
    intros p Hp. apply String.eqb_neq. now apply Hnone.
Qed.

Lemma record_events_run calendar_id cur nxt w :
  exists w',
    (create_current_sleep_event calendar_id cur ;;
     create_next_sleep_event calendar_id nxt ;; ret tt) w = (Ok tt, w')
    /\ filter is_request (trace w')
       = filter is_request (trace w)
         ++ event_request calendar_id "Sleep" cur
            :: match nxt with
               | Some i => [event_request calendar_id "Predicted Sleep" i]
               | None => []
               end.
Proof.
  destruct cur as [[st en] du], nxt as [[[st' en'] du']|];
    unfold create_current_sleep_event, create_next_sleep_event,
      create_sleep_event, bind, print, emit, ret; cbn;
    (eexists; split; [reflexivity|]); requests_of_trace.
Qed.

(** X15: with [--update-calendar] a run that ends well has sent, in this
    order: the building of the service, the lookup of the "Sleep" calendar
    (with its creation when there is none), the event of the current
    interval, titled "Sleep", and then the event of the next interval,
    titled "Predicted Sleep", when there is one; both events go to the
    calendar the lookup gave. *)
Theorem update_records_current_then_next
    (a : args) (w w' : world)
    (Hupdate : update_calendar a = true)
    (Hrun : main a w = (Ok tt, w')) :
  exists cur nxt w1 w2,
    get_current_interval a true w = (Ok cur, w1)
    /\ get_next_interval a cur true w1 = (Ok nxt, w2)
    /\ filter is_request (trace w')
       = filter is_request (trace w)
         ++ Request CallBuildService
            :: fst calendar_lookup
            ++ event_request (snd calendar_lookup) "Sleep" cur
               :: match nxt with
                  | Some i =>
                      [event_request (snd calendar_lookup) "Predicted Sleep" i]
                  | None => []
                  end.
Proof.
  unfold main in Hrun. rewrite Hupdate in Hrun. cbn [negb] in Hrun.
  apply bind_inv_ok in Hrun as (cur & w1 & Hc & Hrun).
  apply bind_inv_ok in Hrun as (nxt & w2 & Hn & Hrun).
  apply bind_inv_ok in Hrun as (u & w3 & Hs & Hrun).
  exists cur, nxt, w1, w2. split; [exact Hc|]. split; [exact Hn|].
  pose proof (quiet_get_current_interval a true w) as Qc.
  pose proof (quiet_get_next_interval a cur true w1) as Qn.
  rewrite Hc in Qc. rewrite Hn in Qn. cbn [snd] in Qc, Qn.
  assert (T3 : filter is_request (trace w3)
               = filter is_request (trace w) ++ [Request CallBuildService]).
  { unfold get_service in Hs.
    destruct security_dir_exists; [|discriminate Hs].
    destruct client_secret_exists; [|discriminate Hs].
    cbn [negb] in Hs. rewrite emit_run in Hs. injection Hs as _ <-.
    requests_of_trace. congruence. }
  destruct (get_sleep_calendar_id_run true w3) as (w4 & H4 & T4).
  rewrite (bind_ok _ _ _ _ _ H4) in Hrun.
  destruct (record_events_run (snd calendar_lookup) cur nxt w4)
    as (w5 & H5 & T5).
  rewrite H5 in Hrun. injection Hrun as <-.
  rewrite T5, T4, T3, <- !app_assoc. reflexivity.
Qed.

(** X16: with [--update-calendar], when the directory of the credentials
    or the client secret in it is missing, [main] stops with the
    [ValueError] of the first one missing, after both intervals have been
    resolved and printed and before anything is sent to the calendar
    service. *)
Theorem missing_credentials_stop_before_any_request
    (a : args) (w w1 w2 : world) (cur : interval) (nxt : option interval)
    (Hupdate : update_calendar a = true)
    (Hcur : get_current_interval a true w = (Ok cur, w1))
    (Hnxt : get_next_interval a cur true w1 = (Ok nxt, w2))
    (Hmissing : security_dir_exists && client_secret_exists = false) :
  main a w
  = (Raise (ValueError (if security_dir_exists then MsgCredentialsNotFound
                        else MsgSecurityDirNotFound)), w2)
  /\ filter is_request (trace w2) = filter is_request (trace w).
Proof.
  split.
  - unfold main. rewrite (bind_ok _ _ _ _ _ Hcur), (bind_ok _ _ _ _ _ Hnxt).
    rewrite Hupdate. cbn [negb]. apply bind_raise. unfold get_service.
    destruct security_dir_exists; [|reflexivity].
    destruct client_secret_exists; [discriminate Hmissing|reflexivity].
  - pose proof (quiet_get_current_interval a true w) as Qc.
    pose proof (quiet_get_next_interval a cur true w1) as Qn.
    rewrite Hcur in Qc. rewrite Hnxt in Qn. cbn [snd] in Qc, Qn. congruence.
Qed.

(** X17: [create_sleep_event_now] makes no use of the calendar id it is
    given: it looks the "Sleep" calendar up again, creating it if need be,
    and records there an event titled "Sleep" from the present instant to
    the given number of hours later. *)
Theorem sleep_event_now_looks_the_calendar_up
    (calendar_id : string) (hours : Z) (w : world)
    (Hlength : in_td_range (hours * US_PER_HOUR) = true)
    (Hend : in_wall_range (wall (zone_now (reads w)) + hours * US_PER_HOUR)
            = true) :
  let now := zone_now (reads w) in
  let run := create_sleep_event_now calendar_id hours w in
  fst run = Ok tt
  /\ filter is_request (trace (snd run))
     = filter is_request (trace w)
       ++ fst calendar_lookup
       ++ [Request (CallEventInsert (snd calendar_lookup) "Sleep"
                      (hours * US_PER_HOUR) now
                      (mk_datetime (wall now + hours * US_PER_HOUR)
                         (utcoffset now))
                      "America/Los_Angeles")].
Proof.
  intros now run. subst run now.
  destruct (get_sleep_calendar_id_run true (tick w)) as (w4 & H4 & T4).
  assert (Hrun :
    create_sleep_event_now calendar_id hours w
    = emit (Request (CallEventInsert (snd calendar_lookup) "Sleep"
                       (hours * US_PER_HOUR) (zone_now (reads w))
                       (mk_datetime
                          (wall (zone_now (reads w)) + hours * US_PER_HOUR)
                          (utcoffset (zone_now (reads w))))
                       SLEEP_CALENDAR_timeZone)) w4).
  { unfold create_sleep_event_now, datetime_now_in_zone,
      timedelta_of_int_hours, dt_add, bind, lift.
    rewrite Hlength. cbv beta iota. rewrite Hend. cbv beta iota.
    now rewrite H4. }
  rewrite Hrun, emit_run. cbn [fst snd]. split; [reflexivity|].
  requests_of_trace. rewrite T4, <- app_assoc. reflexivity.
Qed.


(** ** The text of the predicted start *)

Lemma floor_minute_same_day w :
  floor_minute w / US_PER_DAY = w / US_PER_DAY.
Proof using Type.
  clear - w.
  unfold floor_minute, US_PER_DAY, US_PER_HOUR, US_PER_MINUTE, US_PER_SECOND.
  Z.div_mod_to_equations; lia.
Qed.

Lemma floor_minute_same_hour w :
  (floor_minute w mod US_PER_DAY) / US_PER_HOUR
  = (w mod US_PER_DAY) / US_PER_HOUR.
Proof using Type.
  clear - w.
  unfold floor_minute, US_PER_DAY, US_PER_HOUR, US_PER_MINUTE, US_PER_SECOND.
  Z.div_mod_to_equations; lia.
Qed.

Lemma floor_minute_same_minute w :
  ((floor_minute w mod US_PER_DAY) mod US_PER_HOUR) / US_PER_MINUTE
  = ((w mod US_PER_DAY) mod US_PER_HOUR) / US_PER_MINUTE.
Proof using Type.
  clear - w.
  unfold floor_minute, US_PER_DAY, US_PER_HOUR, US_PER_MINUTE, US_PER_SECOND.
  Z.div_mod_to_equations; lia.
Qed.

Lemma strftime_minute_of_floor dt :
  strftime_minute dt = strftime_minute (naive (floor_minute (wall dt))).
Proof using Type.
  unfold strftime_minute. cbn [wall naive].
  now rewrite floor_minute_same_day, floor_minute_same_hour,
    floor_minute_same_minute.
Qed.

(** X18: when the next start is derived from the current interval, only
    the minute in which the wall clock of the current end plus the offset
    falls has a part in it: two current intervals for which that minute is
    the same give the same result, whatever their seconds, microseconds,
    UTC offsets, starts and durations. *)
Theorem prediction_depends_on_the_minute_only
    (a : args) (s0 e0 s0' e0' : datetime) (d0 d0' : timedelta)
    (verbose : bool) (w w1 : world) (off : Z)
    (Hoff : parse_duration (default_offset a) w = (Ok off, w1))
    (Hrange : in_wall_range (wall e0 + off) = true)
    (Hrange' : in_wall_range (wall e0' + off) = true)
    (Hminute : floor_minute (wall e0 + off) = floor_minute (wall e0' + off)) :
  get_next_interval a (s0, e0, d0) verbose w
  = get_next_interval a (s0', e0', d0') verbose w.
Proof.
  assert (Htext :
    strftime_minute (mk_datetime (wall e0 + off) (utcoffset e0))
    = strftime_minute (mk_datetime (wall e0' + off) (utcoffset e0'))).
  { rewrite (strftime_minute_of_floor (mk_datetime (wall e0 + off) _)),
      (strftime_minute_of_floor (mk_datetime (wall e0' + off) _)).
    cbn [wall]. now rewrite Hminute. }
  unfold get_next_interval.
  destruct (negb (prediction_requested a)); [reflexivity|].
  rewrite !(bind_ok _ _ _ _ _ Hoff).
  destruct (negb _); [|reflexivity].
  unfold dt_add. rewrite Hrange, Hrange'.
  unfold bind, lift, ret. now rewrite Htext.
Qed.

End Script.

(** * The script on concrete command lines

    The stand-ins of [Module Sample] in place of the libraries; the first
    reading of the clock is 2024-01-15 06:30:45.250000. *)

Notation "'run_parse_time'" :=
  (parse_time Sample.clock Sample.dateparser_parse).

Notation "'run_parse_duration'" :=
  (parse_duration Sample.clock Sample.pdt_parseDT Sample.pyfloat
     Sample.float_of_string Sample.timedelta_of_hours).

Notation "'run_get_interval'" :=
  (get_interval Sample.clock Sample.dateparser_parse Sample.pdt_parseDT
     Sample.pyfloat Sample.float_of_string Sample.timedelta_of_hours
     Sample.tz_utcoffset).

Notation "'run_get_current_interval'" :=
  (get_current_interval Sample.clock Sample.dateparser_parse
     Sample.pdt_parseDT Sample.pyfloat Sample.float_of_string
     Sample.timedelta_of_hours Sample.tz_utcoffset).

Notation "'run_get_next_interval'" :=
  (get_next_interval Sample.clock Sample.dateparser_parse
     Sample.pdt_parseDT Sample.pyfloat Sample.float_of_string
     Sample.timedelta_of_hours Sample.tz_utcoffset).

Notation "'run_main'" :=
  (main Sample.clock Sample.dateparser_parse Sample.pdt_parseDT
     Sample.pyfloat Sample.float_of_string Sample.timedelta_of_hours
     Sample.tz_utcoffset true true Sample.calendar_items
     "new-id"%string (Some "https://calendar.example/event"%string)).

Notation "'at_2024' m d hh mm ss" := (Calendar.wall_of 2024 m d hh mm ss 0)
  (at level 10, m, d, hh, mm, ss at level 9).

Ltac evaluate :=
  first [ vm_compute; reflexivity | vm_compute; discriminate ].

Ltac eight_hours := exists 8; split; reflexivity.

Local Open Scope string_scope.

(** [-s "2024-01-14 22:00" -e "2024-01-15 06:02" -d 8]: the calculated
    8 h 02 min and the supplied 8 h agree within the tolerance, and the
    longer one is kept. *)
Lemma consistency_check_nonzero_witness :
  run_get_interval (Some "2024-01-14 22:00") (Some "2024-01-15 06:02")
    (Some "8") DEFAULT_END DEFAULT_DURATION Sample.initial
  = (Ok (aware (at_2024 1 14 22 0 0) Sample.PST,
         aware (at_2024 1 15 6 2 0) Sample.PST,
         8 * US_PER_HOUR + 2 * US_PER_MINUTE),
     tick (tick Sample.initial)).
Proof.
  refine (proj1 (proj2 (proj2
    (consistency_check_nonzero Sample.clock Sample.dateparser_parse
       Sample.pdt_parseDT Sample.pyfloat Sample.float_of_string
       Sample.timedelta_of_hours Sample.tz_utcoffset
       Sample.initial (tick (tick Sample.initial))
       "2024-01-14 22:00" "2024-01-15 06:02" "8"
       (at_2024 1 14 22 0 0) (at_2024 1 15 6 2 0) (8 * US_PER_HOUR)
       Sample.PST Sample.PST _ _ _ _ _ _ _ _ _ _))) _ _); evaluate.
Defined.

(** C1 fails as stated, in both directions.  With [-d 0] the call succeeds
    although the calculated eight hours and the supplied zero differ by
    more than five minutes; with [-s "2024-01-15 10:00"
    -e "2024-01-15 09:59" -d "3 minutes"] the two durations differ by less
    than five minutes and the call fails, the start being after the end. *)
Lemma consistency_is_not_success :
  (let ws := at_2024 1 14 22 0 0 in
   let we := at_2024 1 15 6 0 0 in
   let run :=
     run_get_interval (Some "2024-01-14 22:00") (Some "2024-01-15 06:00")
       (Some "0") DEFAULT_END DEFAULT_DURATION Sample.initial in
   fst (run_parse_duration "0" (tick (tick Sample.initial))) = Ok 0
   /\ ~ (is_ok (fst run) = true
         <-> Z.abs ((we - ws) - 0) <= THRESHOLD_MINS * US_PER_MINUTE))
  /\ (let ws := at_2024 1 15 10 0 0 in
      let we := at_2024 1 15 9 59 0 in
      let d := 3 * US_PER_MINUTE - 252000 in
      let run :=
        run_get_interval (Some "2024-01-15 10:00") (Some "2024-01-15 09:59")
          (Some "3 minutes") DEFAULT_END DEFAULT_DURATION Sample.initial in
      fst (run_parse_duration "3 minutes" (tick (tick Sample.initial))) = Ok d
      /\ ~ (is_ok (fst run) = true
            <-> Z.abs ((we - ws) - d) <= THRESHOLD_MINS * US_PER_MINUTE)).
Proof.
  split; cbv zeta; (split; [evaluate|]).
  - intros [Hsucceeds _].
    assert (H : Z.abs (at_2024 1 15 6 0 0 - at_2024 1 14 22 0 0 - 0)
                <= THRESHOLD_MINS * US_PER_MINUTE)
      by (apply Hsucceeds; evaluate).
    vm_compute in H. now apply H.
  - intros [_ Hconsistent].
    assert (H : is_ok (fst (run_get_interval (Some "2024-01-15 10:00")
                  (Some "2024-01-15 09:59") (Some "3 minutes")
                  DEFAULT_END DEFAULT_DURATION Sample.initial)) = true)
      by (apply Hconsistent; evaluate).
    vm_compute in H. discriminate H.
Qed.

(** [-s "2024-01-14 22:00" -e "2024-01-15 06:00"]. *)
Lemma duration_is_wall_clock_difference_witness :
  run_get_interval (Some "2024-01-14 22:00") (Some "2024-01-15 06:00") None
    DEFAULT_END DEFAULT_DURATION Sample.initial
  = (Ok (aware (at_2024 1 14 22 0 0) Sample.PST,
         aware (at_2024 1 15 6 0 0) Sample.PST,
         at_2024 1 15 6 0 0 - at_2024 1 14 22 0 0),
     tick (tick Sample.initial)).
Proof.
  refine (proj1
    (duration_is_wall_clock_difference Sample.clock Sample.dateparser_parse
       Sample.pdt_parseDT Sample.pyfloat Sample.float_of_string
       Sample.timedelta_of_hours Sample.tz_utcoffset
       Sample.initial "2024-01-14 22:00" "2024-01-15 06:00" None
       (at_2024 1 14 22 0 0) (at_2024 1 15 6 0 0) Sample.PST Sample.PST
       _ _ _ _ _ _ _) _); evaluate.
Defined.

(** C2 fails as stated, whether start <= end is read on the wall clock or
    on the localized times.  With [-s "2024-03-10 02:30"
    -e "2024-03-10 03:00"], around the hour skipped in March, the start is
    before the end on the wall clock and nothing is returned: localized,
    the start is after the end.  With [-s "2024-03-09 22:00"
    -e "2024-03-10 06:00"] the localized start is not after the localized
    end and the duration returned is eight hours, while the end returned
    minus the start returned is seven. *)
Lemma duration_is_not_always_end_minus_start :
  (at_2024 3 10 2 30 0 <= at_2024 3 10 3 0 0
   /\ fst (run_get_interval (Some "2024-03-10 02:30")
             (Some "2024-03-10 03:00") None
             DEFAULT_END DEFAULT_DURATION Sample.initial)
      = Raise (ValueError
          (MsgStartAfterEnd (aware (at_2024 3 10 2 30 0) Sample.PST)
             (aware (at_2024 3 10 3 0 0) Sample.PDT))))
  /\ (let st := aware (at_2024 3 9 22 0 0) Sample.PST in
      let en := aware (at_2024 3 10 6 0 0) Sample.PDT in
      fst (run_get_interval (Some "2024-03-09 22:00")
             (Some "2024-03-10 06:00") None
             DEFAULT_END DEFAULT_DURATION Sample.initial)
      = Ok (st, en, 8 * US_PER_HOUR)
      /\ dt_gt st en = Ok false
      /\ dt_sub en st = Ok (7 * US_PER_HOUR)
      /\ 8 * US_PER_HOUR <> 7 * US_PER_HOUR).
Proof. cbv zeta. repeat split; evaluate. Qed.

(** [-s "2024-01-15 06:00" -d 8] and [-e "2024-01-15 06:00" -d 8]. *)
Lemma missing_end_or_start_is_derived_witness :
  run_get_interval (Some "2024-01-15 06:00") None (Some "8")
    DEFAULT_END DEFAULT_DURATION Sample.initial
  = (Ok (aware (at_2024 1 15 6 0 0) Sample.PST,
         aware (at_2024 1 15 6 0 0 + 8 * US_PER_HOUR) Sample.PST,
         8 * US_PER_HOUR),
     tick Sample.initial)
  /\ run_get_interval None (Some "2024-01-15 06:00") (Some "8")
       DEFAULT_END DEFAULT_DURATION Sample.initial
     = (Ok (aware (at_2024 1 15 6 0 0 - 8 * US_PER_HOUR) Sample.PST,
            aware (at_2024 1 15 6 0 0) Sample.PST,
            8 * US_PER_HOUR),
        tick Sample.initial).
Proof.
  split;
    [ refine (proj1
        (missing_end_or_start_is_derived Sample.clock Sample.dateparser_parse
           Sample.pdt_parseDT Sample.pyfloat Sample.float_of_string
           Sample.timedelta_of_hours Sample.tz_utcoffset
           Sample.initial (tick Sample.initial) "2024-01-15 06:00" "8" None
           (at_2024 1 15 6 0 0) (8 * US_PER_HOUR) _ _ _ _ _ _)
        Sample.PST Sample.PST _ _ _)
    | refine (proj2
        (missing_end_or_start_is_derived Sample.clock Sample.dateparser_parse
           Sample.pdt_parseDT Sample.pyfloat Sample.float_of_string
           Sample.timedelta_of_hours Sample.tz_utcoffset
           Sample.initial (tick Sample.initial) "2024-01-15 06:00" "8" None
           (at_2024 1 15 6 0 0) (8 * US_PER_HOUR) _ _ _ _ _ _)
        Sample.PST Sample.PST _ _ _) ]; evaluate.
Defined.

(** C3 fails as stated.  With [-s "2024-01-15 22:00" -d 0] the supplied
    duration is zero and the end returned is eight hours after the start,
    not the start plus zero; with [-s "2024-01-15 22:00" -d -1] nothing is
    returned, the end computed being before the start. *)
Lemma end_is_not_always_start_plus_duration :
  (fst (run_parse_duration "0" (tick Sample.initial)) = Ok 0
   /\ fst (run_get_interval (Some "2024-01-15 22:00") None (Some "0")
             DEFAULT_END DEFAULT_DURATION Sample.initial)
      = Ok (aware (at_2024 1 15 22 0 0) Sample.PST,
            aware (at_2024 1 16 6 0 0) Sample.PST,
            8 * US_PER_HOUR)
   /\ at_2024 1 16 6 0 0 <> at_2024 1 15 22 0 0 + 0)
  /\ (fst (run_parse_duration "-1" (tick Sample.initial))
      = Ok (- US_PER_HOUR)
      /\ fst (run_get_interval (Some "2024-01-15 22:00") None (Some "-1")
                DEFAULT_END DEFAULT_DURATION Sample.initial)
         = Raise (ValueError
             (MsgStartAfterEnd (aware (at_2024 1 15 22 0 0) Sample.PST)
                (aware (at_2024 1 15 21 0 0) Sample.PST)))).
Proof. repeat split; evaluate. Qed.

(** No option at all, the clock showing 2024-01-15 06:30:45.250000. *)
Lemma defaults_when_nothing_supplied_witness :
  run_get_interval None None None DEFAULT_END DEFAULT_DURATION Sample.initial
  = (Ok (aware (Sample.clock 0 - 8 * US_PER_HOUR) Sample.PST,
         aware (Sample.clock 0) Sample.PST,
         8 * US_PER_HOUR),
     tick Sample.initial).
Proof.
  refine (defaults_when_nothing_supplied Sample.clock Sample.dateparser_parse
            Sample.pdt_parseDT Sample.pyfloat Sample.float_of_string
            Sample.timedelta_of_hours Sample.tz_utcoffset
            Sample.initial None None None Sample.PST Sample.PST
            _ _ _ _ _ _ _ _ _);
    first [ eight_hours | evaluate ].
Defined.

(** [-p -u] and nothing else: requests are sent, so both intervals had
    been resolved before the first of them. *)
Lemma start_never_after_end_witness :
  let a := mk_args None None None true None None None "16" true in
  exists cur w1 nxt w2,
    run_get_current_interval a true Sample.initial = (Ok cur, w1)
    /\ run_get_next_interval a cur true w1 = (Ok nxt, w2)
    /\ no_requests w2.
Proof.
  intros a.
  refine (proj2 (proj2
    (start_never_after_end Sample.clock Sample.dateparser_parse
       Sample.pdt_parseDT Sample.pyfloat Sample.float_of_string
       Sample.timedelta_of_hours Sample.tz_utcoffset true true
       Sample.calendar_items "new-id"
       (Some "https://calendar.example/event")))
    a Sample.initial (fst (run_main a Sample.initial))
    (snd (run_main a Sample.initial)) _ _ _).
  - reflexivity.
  - apply surjective_pairing.
  - evaluate.
Defined.

(** [-p -o 21] after an interval that ends at 2024-01-15 06:30:00. *)
Lemma predicted_start_is_end_plus_offset_to_the_minute_witness :
  let a := mk_args None None None true None None None "21" false in
  let current :=
    (aware (at_2024 1 14 22 30 0) Sample.PST,
     aware (at_2024 1 15 6 30 0) Sample.PST, 8 * US_PER_HOUR) in
  fst (run_get_next_interval a current true Sample.initial)
  = Ok (Some (aware (at_2024 1 16 3 30 0) Sample.PST,
              aware (at_2024 1 16 3 30 0 + 8 * US_PER_HOUR) Sample.PST,
              8 * US_PER_HOUR)).
Proof.
  intros a current.
  refine (proj1
    (predicted_start_is_end_plus_offset_to_the_minute
       Sample.clock Sample.dateparser_parse Sample.pdt_parseDT
       Sample.pyfloat Sample.float_of_string Sample.timedelta_of_hours
       Sample.tz_utcoffset
       a (aware (at_2024 1 14 22 30 0) Sample.PST)
       (aware (at_2024 1 15 6 30 0) Sample.PST) (8 * US_PER_HOUR) true
       Sample.initial Sample.initial (21 * US_PER_HOUR)
       Sample.PST Sample.PST _ _ _ _ _ _ _ _ _ _ _ _));
    first [ eight_hours | evaluate ].
Defined.

(** C6 fails as stated.  With [-p -o 21] and nothing else, the current
    interval ends when the script runs, at 06:30:45.250000; the predicted
    start is 03:30:00 the next day, 45.25 seconds before the end plus 21
    hours.  And with [-e "2024-03-09 06:30" -p -o 21] the end has no
    seconds, but 21 hours later daylight time has begun: the predicted
    start is 03:30 daylight time, an hour before the end plus 21 hours. *)
Lemma predicted_start_is_not_end_plus_offset :
  (let a := mk_args None None None true None None None "21" false in
   let end0 := aware (Sample.clock 0) Sample.PST in
   let current := (aware (Sample.clock 0 - 8 * US_PER_HOUR) Sample.PST,
                   end0, 8 * US_PER_HOUR) in
   let predicted := aware (at_2024 1 16 3 30 0) Sample.PST in
   fst (run_get_current_interval a true Sample.initial) = Ok current
   /\ fst (run_get_next_interval a current true
             (snd (run_get_current_interval a true Sample.initial)))
      = Ok (Some (predicted,
                  aware (at_2024 1 16 11 30 0) Sample.PST,
                  8 * US_PER_HOUR))
   /\ (exists shifted,
         dt_add end0 (21 * US_PER_HOUR) = Ok shifted
         /\ dt_sub predicted shifted = Ok (- 45250000)
         /\ predicted <> shifted))
  /\ (let a := mk_args None (Some "2024-03-09 06:30") None true
                 None None None "21" false in
      let end0 := aware (at_2024 3 9 6 30 0) Sample.PST in
      let current := (aware (at_2024 3 8 22 30 0) Sample.PST,
                      end0, 8 * US_PER_HOUR) in
      let predicted := aware (at_2024 3 10 3 30 0) Sample.PDT in
      fst (run_get_current_interval a true Sample.initial) = Ok current
      /\ fst (run_get_next_interval a current true
                (snd (run_get_current_interval a true Sample.initial)))
         = Ok (Some (predicted,
                     aware (at_2024 3 10 11 30 0) Sample.PDT,
                     8 * US_PER_HOUR))
      /\ (exists shifted,
            dt_add end0 (21 * US_PER_HOUR) = Ok shifted
            /\ dt_sub predicted shifted = Ok (- US_PER_HOUR)
            /\ predicted <> shifted)).
Proof.
  split; cbv zeta; (split; [evaluate|]); (split; [evaluate|]);
    (eexists; split; [vm_compute; reflexivity|]); split; evaluate.
Qed.

(** ["8"] is read as hours, ["8 hours 30 minutes"] by [parsedatetime],
    ["???"] by neither, and ["24000000000"] is too many hours for a
    [timedelta]. *)
Lemma parse_duration_order_witness :
  run_parse_duration "8" Sample.initial
  = (Ok (8 * US_PER_HOUR), Sample.initial)
  /\ run_parse_duration "8 hours 30 minutes" Sample.initial
     = (Ok (floor_second (Sample.clock 0)
            + (8 * US_PER_HOUR + 30 * US_PER_MINUTE) - Sample.clock 0),
        tick Sample.initial)
  /\ run_parse_duration "???" Sample.initial
     = (Raise (ValueError (MsgUnableToParseDuration "???")),
        tick Sample.initial)
  /\ run_parse_duration "24000000000" Sample.initial
     = (Raise OverflowError, Sample.initial).
Proof.
  split; [|split; [|split]].
  - refine (proj1
      (parse_duration_order Sample.clock Sample.pdt_parseDT Sample.pyfloat
         Sample.float_of_string Sample.timedelta_of_hours
         "8" Sample.initial (floor_second (Sample.clock 0)) 0 _) _ _).
    + evaluate.
    + eight_hours.
  - refine (proj1 (proj2
      (parse_duration_order Sample.clock Sample.pdt_parseDT Sample.pyfloat
         Sample.float_of_string Sample.timedelta_of_hours
         "8 hours 30 minutes" Sample.initial
         (floor_second (Sample.clock 0)
          + (8 * US_PER_HOUR + 30 * US_PER_MINUTE)) 2 _)) _ _).
    + evaluate.
    + left. evaluate.
    + discriminate.
  - refine (proj1 (proj2 (proj2
      (parse_duration_order Sample.clock Sample.pdt_parseDT Sample.pyfloat
         Sample.float_of_string Sample.timedelta_of_hours
         "???" Sample.initial (floor_second (Sample.clock 0)) 0 _))) _ _).
    + evaluate.
    + left. evaluate.
    + reflexivity.
  - refine (proj2 (proj2 (proj2
      (parse_duration_order Sample.clock Sample.pdt_parseDT Sample.pyfloat
         Sample.float_of_string Sample.timedelta_of_hours
         "24000000000" Sample.initial (floor_second (Sample.clock 0)) 0 _)))
      24000000000 OverflowError _ _ _).
    + evaluate.
    + evaluate.
    + evaluate.
    + discriminate.
Defined.

(** C7 fails as stated.  For ["24000000000"] the reading as hours fails,
    since a thousand million days are more than a [timedelta] holds, and
    [parsedatetime] makes nothing of the text either; yet the text is not
    given to [parsedatetime] (the clock is not read) and what is raised is
    the [OverflowError] of [timedelta], not the error of an unparsed
    duration. *)
Lemma overflowing_hours_are_not_tried_as_a_phrase :
  let text := "24000000000" in
  Sample.float_of_string text = Some 24000000000
  /\ Sample.timedelta_of_hours 24000000000 = Raise OverflowError
  /\ snd (Sample.pdt_parseDT text (Sample.clock 0)) = 0
  /\ run_parse_duration text Sample.initial
     = (Raise OverflowError, Sample.initial)
  /\ run_parse_duration text Sample.initial
     <> (Raise (ValueError (MsgUnableToParseDuration text)),
         tick Sample.initial).
Proof. cbv zeta. repeat split; evaluate. Qed.

(** [-s "2024-01-14 22:00" -e "2024-01-15 06:00" -d 0] and
    [-s "2024-01-14 22:00" -d 0]. *)
Lemma zero_duration_is_absent_witness :
  run_get_interval (Some "2024-01-14 22:00") (Some "2024-01-15 06:00")
    (Some "0") DEFAULT_END DEFAULT_DURATION Sample.initial
  = (Ok (aware (at_2024 1 14 22 0 0) Sample.PST,
         aware (at_2024 1 15 6 0 0) Sample.PST,
         at_2024 1 15 6 0 0 - at_2024 1 14 22 0 0),
     tick (tick Sample.initial))
  /\ run_get_interval (Some "2024-01-14 22:00") None (Some "0")
       DEFAULT_END DEFAULT_DURATION Sample.initial
     = (Ok (aware (at_2024 1 14 22 0 0) Sample.PST,
            aware (at_2024 1 14 22 0 0 + 8 * US_PER_HOUR) Sample.PST,
            8 * US_PER_HOUR),
        tick Sample.initial).
Proof.
  split.
  - refine (proj1 (proj2
      (zero_duration_is_absent Sample.clock Sample.dateparser_parse
         Sample.pdt_parseDT Sample.pyfloat Sample.float_of_string
         Sample.timedelta_of_hours Sample.tz_utcoffset
         Sample.initial (tick (tick Sample.initial))
         "2024-01-14 22:00" "2024-01-15 06:00" "0" None
         (at_2024 1 14 22 0 0) (at_2024 1 15 6 0 0) _ _ _ _ _))
      Sample.PST Sample.PST _ _ _ _ _); evaluate.
  - refine (proj2 (proj2
      (zero_duration_is_absent Sample.clock Sample.dateparser_parse
         Sample.pdt_parseDT Sample.pyfloat Sample.float_of_string
         Sample.timedelta_of_hours Sample.tz_utcoffset
         Sample.initial (tick Sample.initial)
         "2024-01-14 22:00" "2024-01-15 06:00" "0" None
         (at_2024 1 14 22 0 0) (at_2024 1 15 6 0 0) _ _ _ _ _))
      Sample.PST Sample.PST _ _ _ _ _ _); first [ eight_hours | evaluate ].
Defined.

(** C8 does not hold of the code: [parse_time] hands back what
    [dateparser.parse] returns and raises nothing, so for a text that cannot
    be resolved, such as ["???"], it returns [None]; [get_interval] then
    takes the start as not supplied and answers with the defaults. *)
Theorem parse_time_returns_none_for_unresolved_text :
  (forall clock dateparser_parse text w,
      fst (parse_time clock dateparser_parse text w)
      = Ok (dateparser_parse (clock (reads w)) text))
  /\ run_parse_time "???" Sample.initial = (Ok None, tick Sample.initial)
  /\ fst (run_get_interval (Some "???") None None
            DEFAULT_END DEFAULT_DURATION Sample.initial)
     = Ok (aware (Sample.clock 1 - 8 * US_PER_HOUR) Sample.PST,
           aware (Sample.clock 1) Sample.PST,
           8 * US_PER_HOUR).
Proof. repeat split; evaluate. Qed.

(** * Further runs on concrete command lines *)

(** Start 22:00, end 06:02 the next day, eight hours to check against. *)
Lemma checked_duration_within_threshold_witness :
  let calc := at_2024 1 15 6 2 0 - at_2024 1 14 22 0 0 in
  calc <= 8 * US_PER_HOUR + 2 * US_PER_MINUTE
       <= calc + THRESHOLD_MINS * US_PER_MINUTE.
Proof.
  refine (proj1
    (checked_duration_within_threshold
       (naive (at_2024 1 14 22 0 0)) (naive (at_2024 1 15 6 2 0))
       (Some (8 * US_PER_HOUR)) THRESHOLD_MINS
       (at_2024 1 15 6 2 0 - at_2024 1 14 22 0 0)
       (8 * US_PER_HOUR + 2 * US_PER_MINUTE) _ _ _)); evaluate.
Defined.

(** [-s "2024-01-14 22:00" -e "2024-01-15 06:02" -d 8]. *)
Lemma returned_interval_is_coherent_witness :
  let st := aware (at_2024 1 14 22 0 0) Sample.PST in
  let en := aware (at_2024 1 15 6 2 0) Sample.PST in
  utcoffset st <> None /\ utcoffset en <> None
  /\ wall en - wall st <= 8 * US_PER_HOUR + 2 * US_PER_MINUTE
     <= wall en - wall st + THRESHOLD_MINS * US_PER_MINUTE.
Proof.
  refine (returned_interval_is_coherent Sample.clock Sample.dateparser_parse
            Sample.pdt_parseDT Sample.pyfloat Sample.float_of_string
            Sample.timedelta_of_hours Sample.tz_utcoffset
            (Some "2024-01-14 22:00") (Some "2024-01-15 06:02") (Some "8")
            DEFAULT_END DEFAULT_DURATION Sample.initial
            (tick (tick Sample.initial))
            (aware (at_2024 1 14 22 0 0) Sample.PST)
            (aware (at_2024 1 15 6 2 0) Sample.PST)
            (8 * US_PER_HOUR + 2 * US_PER_MINUTE) _); evaluate.
Defined.

(** [-s "2024-01-14 22:00 UTC" -e "2024-01-15 06:00"], the start coming
    back from the parser with the zone it names. *)
Lemma aware_time_is_refused_witness :
  is_ok (fst (get_interval Sample.clock Sample.dateparser_parse_zoned
                Sample.pdt_parseDT Sample.pyfloat Sample.float_of_string
                Sample.timedelta_of_hours Sample.tz_utcoffset
                (Some "2024-01-14 22:00 UTC") (Some "2024-01-15 06:00") None
                DEFAULT_END DEFAULT_DURATION Sample.initial))
  = false.
Proof.
  refine (proj1
    (aware_time_is_refused Sample.clock Sample.dateparser_parse_zoned
       Sample.pdt_parseDT Sample.pyfloat Sample.float_of_string
       Sample.timedelta_of_hours Sample.tz_utcoffset
       (Some "2024-01-14 22:00 UTC") (Some "2024-01-15 06:00") None
       DEFAULT_END DEFAULT_DURATION Sample.initial
       "2024-01-14 22:00 UTC" (aware (at_2024 1 14 22 0 0) 0) _ _) _ _);
    first [ reflexivity | discriminate | evaluate ].
Defined.

(** [-s "???"]. *)
Lemma unresolved_start_is_no_start_witness :
  run_get_interval (Some "???") None None
    DEFAULT_END DEFAULT_DURATION Sample.initial
  = run_get_interval None None None
      DEFAULT_END DEFAULT_DURATION (tick Sample.initial).
Proof.
  refine (unresolved_start_is_no_start Sample.clock Sample.dateparser_parse
            Sample.pdt_parseDT Sample.pyfloat Sample.float_of_string
            Sample.timedelta_of_hours Sample.tz_utcoffset
            "???" None None DEFAULT_END DEFAULT_DURATION Sample.initial _ _);
    evaluate.
Defined.

(** [-d 8], the clock showing 2024-01-15 06:30:45.250000. *)
Lemma only_duration_counts_back_from_now_witness :
  run_get_interval None None (Some "8")
    DEFAULT_END DEFAULT_DURATION Sample.initial
  = (Ok (aware (Sample.clock 0 - 8 * US_PER_HOUR) Sample.PST,
         aware (Sample.clock 0) Sample.PST, 8 * US_PER_HOUR),
     tick Sample.initial).
Proof.
  refine (only_duration_counts_back_from_now Sample.clock
            Sample.dateparser_parse Sample.pdt_parseDT Sample.pyfloat
            Sample.float_of_string Sample.timedelta_of_hours
            Sample.tz_utcoffset Sample.initial Sample.initial None None "8"
            (8 * US_PER_HOUR) (Sample.clock 0) Sample.PST Sample.PST
            _ _ _ _ _ _ _ _ _); evaluate.
Defined.

(** [-s "2024-01-15 06:00"] and [-e "2024-01-15 06:00"]. *)
Lemma default_duration_completes_one_end_witness :
  run_get_interval (Some "2024-01-15 06:00") None None
    DEFAULT_END DEFAULT_DURATION Sample.initial
  = (Ok (aware (at_2024 1 15 6 0 0) Sample.PST,
         aware (at_2024 1 15 6 0 0 + 8 * US_PER_HOUR) Sample.PST,
         8 * US_PER_HOUR),
     tick Sample.initial)
  /\ run_get_interval None (Some "2024-01-15 06:00") None
       DEFAULT_END DEFAULT_DURATION Sample.initial
     = (Ok (aware (at_2024 1 15 6 0 0 - 8 * US_PER_HOUR) Sample.PST,
            aware (at_2024 1 15 6 0 0) Sample.PST,
            8 * US_PER_HOUR),
        tick Sample.initial).
Proof.
  split;
    [ refine (proj1
        (default_duration_completes_one_end Sample.clock
           Sample.dateparser_parse Sample.pdt_parseDT Sample.pyfloat
           Sample.float_of_string Sample.timedelta_of_hours
           Sample.tz_utcoffset Sample.initial (tick Sample.initial)
           "2024-01-15 06:00" None None (at_2024 1 15 6 0 0)
           (8 * US_PER_HOUR) _ _ _ _ _) Sample.PST Sample.PST _ _ _)
    | refine (proj2
        (default_duration_completes_one_end Sample.clock
           Sample.dateparser_parse Sample.pdt_parseDT Sample.pyfloat
           Sample.float_of_string Sample.timedelta_of_hours
           Sample.tz_utcoffset Sample.initial (tick Sample.initial)
           "2024-01-15 06:00" None None (at_2024 1 15 6 0 0)
           (8 * US_PER_HOUR) _ _ _ _ _) Sample.PST Sample.PST _ _ _) ];
    evaluate.
Defined.

(** [-s "2024-01-14 22:00" -d "???"]. *)
Lemma unparsed_duration_stops_the_call_witness :
  run_get_interval (Some "2024-01-14 22:00") None (Some "???")
    DEFAULT_END DEFAULT_DURATION Sample.initial
  = (Raise (ValueError (MsgUnableToParseDuration "???")),
     tick (tick Sample.initial)).
Proof.
  refine (unparsed_duration_stops_the_call Sample.clock
            Sample.dateparser_parse Sample.pdt_parseDT Sample.pyfloat
            Sample.float_of_string Sample.timedelta_of_hours
            Sample.tz_utcoffset (Some "2024-01-14 22:00") None "???"
            DEFAULT_END DEFAULT_DURATION Sample.initial
            (tick (tick Sample.initial))
            (ValueError (MsgUnableToParseDuration "???")) _ _); evaluate.
Defined.

(** [-d 24000000000]: a thousand million days, one more than a
    [timedelta] holds. *)
Lemma numeric_overflow_is_not_retried_witness :
  run_parse_duration "24000000000" Sample.initial
  = (Raise OverflowError, Sample.initial).
Proof.
  refine (numeric_overflow_is_not_retried Sample.clock Sample.pdt_parseDT
            Sample.pyfloat Sample.float_of_string Sample.timedelta_of_hours
            "24000000000" 24000000000 OverflowError Sample.initial _ _ _);
    first [ evaluate | discriminate ].
Defined.

(** No [-p] and no next start, end or duration, with an offset that
    could not be parsed. *)
Lemma no_prediction_unless_requested_witness :
  let a := mk_args None None None false None None None "???" false in
  let current := (aware (at_2024 1 14 22 0 0) Sample.PST,
                  aware (at_2024 1 15 6 0 0) Sample.PST, 8 * US_PER_HOUR) in
  run_get_next_interval a current true Sample.initial
  = (Ok None, Sample.initial).
Proof.
  intros a current.
  refine (proj1
    (no_prediction_unless_requested Sample.clock Sample.dateparser_parse
       Sample.pdt_parseDT Sample.pyfloat Sample.float_of_string
       Sample.timedelta_of_hours Sample.tz_utcoffset
       a current true Sample.initial) _).
  reflexivity.
Defined.

(** [--next-start "2024-01-15 22:00" -o "???"]. *)
Lemma refused_offset_stops_the_prediction_witness :
  let a := mk_args None None None false (Some "2024-01-15 22:00") None None
             "???" false in
  let current := (aware (at_2024 1 14 22 0 0) Sample.PST,
                  aware (at_2024 1 15 6 0 0) Sample.PST, 8 * US_PER_HOUR) in
  run_get_next_interval a current true Sample.initial
  = (Raise (ValueError (MsgUnableToParseDuration "???")),
     tick Sample.initial).
Proof.
  intros a current.
  refine (refused_offset_stops_the_prediction Sample.clock
            Sample.dateparser_parse Sample.pdt_parseDT Sample.pyfloat
            Sample.float_of_string Sample.timedelta_of_hours
            Sample.tz_utcoffset a current true Sample.initial
            (tick Sample.initial)
            (ValueError (MsgUnableToParseDuration "???")) _ _); evaluate.
Defined.

(** [--next-start "2024-01-15 22:00"] after two different current
    intervals. *)
Lemma supplied_next_interval_ignores_the_current_one_witness :
  let a := mk_args None None None false (Some "2024-01-15 22:00") None None
             "16" false in
  run_get_next_interval a
    (aware (at_2024 1 14 22 0 0) Sample.PST,
     aware (at_2024 1 15 6 0 0) Sample.PST, 8 * US_PER_HOUR)
    true Sample.initial
  = run_get_next_interval a
      (aware (at_2024 1 10 1 0 0) Sample.PST,
       aware (at_2024 1 10 2 0 0) Sample.PST, US_PER_HOUR)
      true Sample.initial.
Proof.
  intros a.
  refine (supplied_next_interval_ignores_the_current_one Sample.clock
            Sample.dateparser_parse Sample.pdt_parseDT Sample.pyfloat
            Sample.float_of_string Sample.timedelta_of_hours
            Sample.tz_utcoffset a _ _ true Sample.initial _).
  reflexivity.
Defined.

(** [-p] alone. *)
Lemma dry_run_only_prints_witness :
  let a := mk_args None None None true None None None "16" false in
  let w' := snd (run_main a Sample.initial) in
  exists cur nxt w1,
    run_get_current_interval a true Sample.initial = (Ok cur, w1)
    /\ run_get_next_interval a cur true w1 = (Ok nxt, w')
    /\ trace w' = (trace Sample.initial
                   ++ interval_lines "Current sleep interval:" cur
                   ++ match nxt with
                      | Some i => interval_lines "Next sleep interval:" i
                      | None => []
                      end)%list
    /\ filter is_request (trace w') = filter is_request (trace Sample.initial).
Proof.
  intros a w'.
  refine (dry_run_only_prints Sample.clock Sample.dateparser_parse
            Sample.pdt_parseDT Sample.pyfloat Sample.float_of_string
            Sample.timedelta_of_hours Sample.tz_utcoffset true true
            Sample.calendar_items "new-id"
            (Some "https://calendar.example/event")
            a Sample.initial w' _ _); evaluate.
Defined.

(** [-s "2024-01-15 10:00" -e "2024-01-15 09:00" -u]. *)
Lemma failed_current_interval_leaves_no_trace_witness :
  let a := mk_args (Some "2024-01-15 10:00") (Some "2024-01-15 09:00") None
             false None None None "16" true in
  let e := ValueError (MsgStartAfterEnd
                         (aware (at_2024 1 15 10 0 0) Sample.PST)
                         (aware (at_2024 1 15 9 0 0) Sample.PST)) in
  run_main a Sample.initial = (Raise e, tick (tick Sample.initial))
  /\ trace (tick (tick Sample.initial)) = trace Sample.initial.
Proof.
  intros a e.
  refine (failed_current_interval_leaves_no_trace Sample.clock
            Sample.dateparser_parse Sample.pdt_parseDT Sample.pyfloat
            Sample.float_of_string Sample.timedelta_of_hours
            Sample.tz_utcoffset true true Sample.calendar_items "new-id"
            (Some "https://calendar.example/event")
            a Sample.initial (tick (tick Sample.initial)) e _); evaluate.
Defined.

(** An account with the calendars "Work" and "Sleep". *)
Lemma sleep_calendar_is_found_or_created_witness :
  fst (get_sleep_calendar_id Sample.calendar_items "new-id" true
         Sample.initial)
  = Ok "sleep-id"
  /\ filter is_request
       (trace (snd (get_sleep_calendar_id Sample.calendar_items "new-id" true
                      Sample.initial)))
     = (filter is_request (trace Sample.initial)
        ++ [Request CallCalendarList])%list.
Proof.
  refine (proj1
    (sleep_calendar_is_found_or_created Sample.calendar_items "new-id" true
       Sample.initial)
    [mk_calendar "Work" "work-id"] (mk_calendar "Sleep" "sleep-id") []
    _ _ _).
  - reflexivity.
  - intros p [<-|[]]. discriminate.
  - reflexivity.
Defined.

(** [-p -u] and nothing else. *)
Lemma update_records_current_then_next_witness :
  let a := mk_args None None None true None None None "16" true in
  let w' := snd (run_main a Sample.initial) in
  let lookup := calendar_lookup Sample.calendar_items "new-id" in
  exists cur nxt w1 w2,
    run_get_current_interval a true Sample.initial = (Ok cur, w1)
    /\ run_get_next_interval a cur true w1 = (Ok nxt, w2)
    /\ filter is_request (trace w')
       = (filter is_request (trace Sample.initial)
          ++ Request CallBuildService
             :: fst lookup
             ++ event_request (snd lookup) "Sleep" cur
                :: match nxt with
                   | Some i => [event_request (snd lookup) "Predicted Sleep" i]
                   | None => []
                   end)%list.
Proof.
  intros a w' lookup.
  refine (update_records_current_then_next Sample.clock
            Sample.dateparser_parse Sample.pdt_parseDT Sample.pyfloat
            Sample.float_of_string Sample.timedelta_of_hours
            Sample.tz_utcoffset true true Sample.calendar_items "new-id"
            (Some "https://calendar.example/event")
            a Sample.initial w' _ _); evaluate.
Defined.

(** [-u] and nothing else, the directory of the credentials missing. *)
Lemma missing_credentials_stop_before_any_request_witness :
  let a := mk_args None None None false None None None "16" true in
  let current := (aware (Sample.clock 0 - 8 * US_PER_HOUR) Sample.PST,
                  aware (Sample.clock 0) Sample.PST, 8 * US_PER_HOUR) in
  let w1 := mk_world 1 (interval_lines "Current sleep interval:" current) in
  main Sample.clock Sample.dateparser_parse Sample.pdt_parseDT
    Sample.pyfloat Sample.float_of_string Sample.timedelta_of_hours
    Sample.tz_utcoffset false true Sample.calendar_items "new-id"
    (Some "https://calendar.example/event") a Sample.initial
  = (Raise (ValueError MsgSecurityDirNotFound), w1)
  /\ filter is_request (trace w1) = filter is_request (trace Sample.initial).
Proof.
  intros a current w1.
  refine (missing_credentials_stop_before_any_request Sample.clock
            Sample.dateparser_parse Sample.pdt_parseDT Sample.pyfloat
            Sample.float_of_string Sample.timedelta_of_hours
            Sample.tz_utcoffset false true Sample.calendar_items "new-id"
            (Some "https://calendar.example/event")
            a Sample.initial w1 w1 current None _ _ _ _); evaluate.
Defined.

(** Eight hours from now, with an id that names no calendar. *)
Lemma sleep_event_now_looks_the_calendar_up_witness :
  let run := create_sleep_event_now Sample.calendar_items "new-id"
               Sample.zone_now "no-such-calendar" 8 Sample.initial in
  fst run = Ok tt
  /\ filter is_request (trace (snd run))
     = [Request CallCalendarList;
        Request (CallEventInsert "sleep-id" "Sleep" (8 * US_PER_HOUR)
                   (aware (Sample.clock 0) Sample.PST)
                   (aware (Sample.clock 0 + 8 * US_PER_HOUR) Sample.PST)
                   "America/Los_Angeles")].
Proof.
  refine (sleep_event_now_looks_the_calendar_up Sample.calendar_items
            "new-id" Sample.zone_now "no-such-calendar" 8 Sample.initial
            _ _); evaluate.
Defined.

(** [-p -o 21] after an interval that ends at 06:30:45.25 standard time
    and after one that ends at 06:30:00 daylight time. *)
Lemma prediction_depends_on_the_minute_only_witness :
  let a := mk_args None None None true None None None "21" false in
  run_get_next_interval a
    (aware (at_2024 1 14 22 0 0) Sample.PST,
     aware (Sample.clock 0) Sample.PST, 8 * US_PER_HOUR)
    true Sample.initial
  = run_get_next_interval a
      (aware (at_2024 1 15 1 0 0) Sample.PDT,
       aware (at_2024 1 15 6 30 0) Sample.PDT, 5 * US_PER_HOUR)
      true Sample.initial.
Proof.
  intros a.
  refine (prediction_depends_on_the_minute_only Sample.clock
            Sample.dateparser_parse Sample.pdt_parseDT Sample.pyfloat
            Sample.float_of_string Sample.timedelta_of_hours
            Sample.tz_utcoffset a _ _ _ _ _ _ true
            Sample.initial Sample.initial (21 * US_PER_HOUR) _ _ _ _);
    evaluate.
Defined.
